(** * humanworkersmatter: attribution engine and nowcasting counter

    A shallow embedding of the numerical subsystems of the repository and
    the properties established for them.

    - [JS]: the JavaScript primitives the programs rely on.
    - [Attribution]: the attribution model ([calculateDeploymentMaturity],
      [calculateDisplacementScores], [verifyTotal]).
    - [Nowcast]: the live counter server ([fetchAllData],
      [calculateAIDisplacement], [Counter]).
    - [Health], [Client], [Store]: the health probe, the page's counter and
      the event store.
    - [WithPrototype]: the scoring of [Attribution] with the table lookups
      in full.
    - [Samples], [Feeds], [MoreSamples], [PrototypeSamples]: concrete
      rosters, refreshes and runs.
    - the modules after them: lemmas and theorems.

    Numbers.  JavaScript numbers are modelled by exact rationals [Q]; values
    the code keeps integral ([Math.round], [Math.floor], counters, dates in
    milliseconds) are [Z].  Rationals are compared by value ([==]).  The
    inputs considered are finite numbers and valid dates; NaN appears where
    the code itself produces it from such inputs, in [WithPrototype].
    [Math.log10] is a parameter of the scoring.  Two expressions are also
    given in binary64 and evaluated there: the adoption curve and the
    decimal counter.

    Objects.  In [Attribution] the constant tables are lists of their own
    entries, and a key is looked up among those.  [WithPrototype] adds the
    names that the tables inherit from [Object.prototype], and agrees with
    [Attribution] on every roster that uses none of them as a key.

    Environment.  Clock readings, [Math.random] draws and the results of
    the fetches are arguments of the functions that read them.  A function
    that can throw returns an option. *)

From Stdlib Require Import ZArith QArith Qround Qabs Lqa Lia.
From Stdlib Require Import List String Bool Permutation Sorted.
From Stdlib Require Import PrimFloat Uint63.
Import ListNotations.

Set Warnings "-inexact-float".

Open Scope Z_scope.
Open Scope Q_scope.

(* ------------------------------------------------------------------------- *)
(** ** JavaScript primitives used by both programs *)
(* ------------------------------------------------------------------------- *)

Module JS.

(** [a < b] on numbers. *)
Definition ltb (a b : Q) : bool := negb (Qle_bool b a).

(** [a >= b] on numbers. *)
Definition geb (a b : Q) : bool := Qle_bool b a.

(** A number is falsy exactly when it is zero (NaN aside). *)
Definition truthy (x : Q) : bool := negb (Qeq_bool x 0).

(** A string is falsy exactly when it is empty. *)
Definition truthy_string (s : string) : bool :=
  match s with
  | EmptyString => false
  | String _ _ => true
  end.

(** [x || d] where [x] is a number, [null] or [undefined]. *)
Definition or_else (x : option Q) (d : Q) : Q :=
  match x with
  | Some v => if truthy v then v else d
  | None => d
  end.

(** [Math.floor]. *)
Definition Math_floor (x : Q) : Z := Qfloor x.

(** [Math.round]: the nearest integer, ties towards +infinity. *)
Definition Math_round (x : Q) : Z := Qfloor (x + (1 # 2)).

(** [Math.max] on two numbers. *)
Definition Math_max (a b : Q) : Q := if Qle_bool a b then b else a.

(** [x.toFixed(k)]: the decimal string with [k] fractional digits, given by
    the integer [n] it denotes ([n / 10^k]); the sign is split off and the
    magnitude rounded to the nearest, ties upwards. *)
Definition toFixed (k : nat) (x : Q) : Z :=
  let scale := inject_Z (10 ^ Z.of_nat k) in
  if ltb x 0 then (- Math_round (- x * scale))%Z else Math_round (x * scale).

(** [table[key]] among the own entries of an object literal; the names that
    the literal inherits are added by [WithPrototype.property]. *)
Fixpoint lookup {A : Type} (key : string) (table : list (string * A)) : option A :=
  match table with
  | [] => None
  | (k, v) :: rest => if String.eqb key k then Some v else lookup key rest
  end.

(** [Object.keys]. *)
Definition keys {A : Type} (table : list (string * A)) : list string :=
  map fst table.

(** [arr.reduce((sum, c) => sum + f(c), 0)]. *)
Definition sumQ {A : Type} (f : A -> Q) (l : list A) : Q :=
  fold_left (fun sum c => sum + f c) l 0.

Definition sumZ {A : Type} (f : A -> Z) (l : list A) : Z :=
  fold_left (fun sum c => (sum + f c)%Z) l 0%Z.

(** [arr.sort(cmp)]: the sort is stable, and for a comparator that is a
    difference of integer keys its result is the one ordered list that keeps
    equal elements in their original order; inserting from the right, in
    front of the first element that does not have to precede, builds it. *)
Section Sort.
Context {A : Type} (cmp : A -> A -> Z).

Fixpoint insert (x : A) (l : list A) : list A :=
  match l with
  | [] => [x]
  | y :: rest =>
      if (0 <? cmp x y)%Z then y :: insert x rest else x :: y :: rest
  end.

Definition sort (l : list A) : list A := fold_right insert [] l.
End Sort.


(** [arr.map((x, index) => f(index, x))]. *)
Fixpoint mapi_from {A B : Type} (f : Z -> A -> B) (i : Z) (l : list A) : list B :=
  match l with
  | [] => []
  | x :: rest => f i x :: mapi_from f (i + 1)%Z rest
  end.

Definition mapi {A B : Type} (f : Z -> A -> B) (l : list A) : list B :=
  mapi_from f 0%Z l.

End JS.

(* ------------------------------------------------------------------------- *)
(** ** Attribution model *)
(* ------------------------------------------------------------------------- *)

Module Attribution.
Import JS.

(** Dates are milliseconds since the Unix epoch, as [Date] arithmetic and
    comparison see them. *)
Definition AI_ERA_START : Z := 1669766400000.   (* new Date('2022-11-30') *)
Definition CURRENT_DATE : Z := 1769904000000.   (* new Date('2026-02-01') *)
Definition MS_PER_MONTH : Z := 1000 * 60 * 60 * 24 * 30.
Definition MONTHS_SINCE_AI_ERA : Z :=
  Math_floor (inject_Z (CURRENT_DATE - AI_ERA_START) / inject_Z MS_PER_MONTH).

Record Category := {
  cat_name : string;
  allocation : Q
}.

Definition DISPLACEMENT_CATEGORIES : list (string * Category) :=
  [ ("foundation_models", {| cat_name := "Foundation Models"; allocation := 0.22 |});
    ("coding",            {| cat_name := "AI Coding Tools"; allocation := 0.20 |});
    ("customer_service",  {| cat_name := "Customer Service AI"; allocation := 0.18 |});
    ("administrative",    {| cat_name := "Administrative AI"; allocation := 0.12 |});
    ("autonomous",        {| cat_name := "Autonomous Systems"; allocation := 0.10 |});
    ("creative",          {| cat_name := "Creative AI"; allocation := 0.08 |});
    ("sales_marketing",   {| cat_name := "Sales & Marketing AI"; allocation := 0.06 |});
    ("analytics",         {| cat_name := "Data & Analytics AI"; allocation := 0.03 |});
    ("healthcare",        {| cat_name := "Healthcare AI"; allocation := 0.01 |}) ]%string.

(** An entry of the roster.  [productLaunch = None] is [null];
    [operationalStatus = None] is an absent field. *)
Record Company := {
  name : string;
  valuation : Q;
  category : string;
  industry : string;
  founded : Z;
  productLaunch : option Z;
  displacementType : string;
  operationalStatus : option Q;
  enterpriseLevel : string;
  notes : string
}.

Definition DISPLACEMENT_TYPE_MULT : list (string * Q) :=
  [ ("direct", 1.0); ("augmentation", 0.4); ("infrastructure", 0.25) ]%string.

Definition ENTERPRISE_MULT : list (string * Q) :=
  [ ("enterprise", 1.0); ("prosumer", 0.6); ("consumer", 0.15) ]%string.

(** The months credited to a product launched at [launch <= CURRENT_DATE]. *)
Definition effectiveMonths (launch : Z) : Z :=
  let monthsSinceLaunch :=
    Math_floor (inject_Z (CURRENT_DATE - launch) / inject_Z MS_PER_MONTH) in
  if (launch <? AI_ERA_START)%Z
  then Z.min monthsSinceLaunch MONTHS_SINCE_AI_ERA
  else monthsSinceLaunch.

(** The adoption curve, the final [if] chain of [calculateDeploymentMaturity]. *)
Definition adoptionCurve (effectiveMonths : Z) : Q :=
  let m := inject_Z effectiveMonths in
  if (effectiveMonths <=? 6)%Z then 0.2 + (m / 6) * 0.3
  else if (effectiveMonths <=? 12)%Z then 0.5 + ((m - 6) / 6) * 0.25
  else if (effectiveMonths <=? 24)%Z then 0.75 + ((m - 12) / 12) * 0.25
  else 1.0.

Definition calculateDeploymentMaturity (company : Company) : Q :=
  match productLaunch company with
  | None => 0
  | Some launch =>
      if (CURRENT_DATE <? launch)%Z then 0
      else adoptionCurve (effectiveMonths launch)
  end.

(** The same chain in binary64 arithmetic, for the non-negative integer
    months that [Math.floor] hands to it. *)
Definition adoptionCurve_binary64 (effectiveMonths : Z) : float :=
  let m := PrimFloat.of_uint63 (Uint63.of_Z effectiveMonths) in
  if (effectiveMonths <=? 6)%Z then (0.2 + (m / 6) * 0.3)%float
  else if (effectiveMonths <=? 12)%Z then (0.5 + ((m - 6) / 6) * 0.25)%float
  else if (effectiveMonths <=? 24)%Z then (0.75 + ((m - 12) / 12) * 0.25)%float
  else 1.0%float.

(** Every element is at most the next one, in binary64. *)
Fixpoint nondecreasing_binary64 (l : list float) : bool :=
  match l with
  | x :: ((y :: _) as rest) => PrimFloat.leb x y && nondecreasing_binary64 rest
  | _ => true
  end.

(** The entity's category is a key of [DISPLACEMENT_CATEGORIES]. *)
Definition hasCategory (c : Company) : bool :=
  match lookup (category c) DISPLACEMENT_CATEGORIES with
  | Some _ => true
  | None => false
  end.

(** The six factors of a raw score. *)
Record Factors := {
  categoryAllocation : Q;
  marketShare : Q;
  deploymentMaturity : Q;
  displacementTypeMult : Q;
  operationalFactor : Q;
  enterpriseFactor : Q
}.

(** [{ ...company, factors, rawScore }]. *)
Record Scored := {
  company : Company;
  factors : Factors;
  rawScore : Q
}.

(** The formatted factors shown with a row: percentages as the integers
    their [toFixed] strings denote. *)
Record ShownFactors := {
  shown_category : Z;       (* toFixed(0) + '% pool' *)
  shown_marketShare : Z;    (* toFixed(1) + '%' *)
  shown_maturity : Z;       (* toFixed(0) + '%' *)
  shown_type : string;
  shown_operational : Z;    (* toFixed(0) + '%' *)
  shown_market : string
}.

(** An element of [normalized]. *)
Record Row := {
  row_name : string;
  row_industry : string;
  row_category : string;
  row_valuation : Q;
  displacement : Z;
  percentage : Z;           (* (percentage * 100).toFixed(2) *)
  row_factors : ShownFactors;
  rawFactors : Factors;
  row_notes : string
}.

(** [{ rank: index + 1, ...company }]. *)
Record Ranked := {
  rank : Z;
  row : Row
}.

Section Scores.

(** [Math.log10]. *)
Variable log10 : Q -> Q.

(** Step 1: [byCategory]. *)
Definition groupByCategory (companies : list Company) : list (string * list Company) :=
  map (fun cat => (cat, filter (fun c => String.eqb (category c) cat) companies))
      (keys DISPLACEMENT_CATEGORIES).

(** Step 2, the callback of [companies.map]: [inl] is the warning logged
    before [return null]. *)
Definition scoreCompany (byCategory : list (string * list Company))
    (company : Company) : string + Scored :=
  match lookup (category company) DISPLACEMENT_CATEGORIES with
  | None =>
      inl ("Unknown category: " ++ category company ++ " for " ++ name company)%string
  | Some cat =>
      let categoryAllocation := allocation cat in
      let categoryCompanies :=
        match lookup (category company) byCategory with
        | Some l => l
        | None => []
        end in
      let categoryTotalVal :=
        sumQ (fun c => log10 (valuation c + 1)) categoryCompanies in
      let companyVal := log10 (valuation company + 1) in
      let marketShare :=
        if ltb 0 categoryTotalVal then companyVal / categoryTotalVal else 0 in
      let deploymentMaturity := calculateDeploymentMaturity company in
      let displacementTypeMult :=
        or_else (lookup (displacementType company) DISPLACEMENT_TYPE_MULT) 0.5 in
      let operationalFactor := or_else (operationalStatus company) 1.0 in
      let enterpriseFactor :=
        or_else (lookup (enterpriseLevel company) ENTERPRISE_MULT) 0.6 in
      let rawScore :=
        categoryAllocation
        * marketShare
        * deploymentMaturity
        * displacementTypeMult
        * operationalFactor
        * enterpriseFactor in
      inr {| company := company;
             factors := {| categoryAllocation := categoryAllocation;
                           marketShare := marketShare;
                           deploymentMaturity := deploymentMaturity;
                           displacementTypeMult := displacementTypeMult;
                           operationalFactor := operationalFactor;
                           enterpriseFactor := enterpriseFactor |};
             rawScore := rawScore |}
  end.

(** [.filter(Boolean)] drops the [null]s. *)
Fixpoint filterBoolean (l : list (string + Scored)) : list Scored :=
  match l with
  | [] => []
  | inl _ :: rest => filterBoolean rest
  | inr s :: rest => s :: filterBoolean rest
  end.

(** What [console.warn] received, in order. *)
Fixpoint warned (l : list (string + Scored)) : list string :=
  match l with
  | [] => []
  | inl w :: rest => w :: warned rest
  | inr _ :: rest => warned rest
  end.

Definition scoreCompanies (companies : list Company) : list Scored :=
  filterBoolean (map (scoreCompany (groupByCategory companies)) companies).

Definition warnings (companies : list Company) : list string :=
  warned (map (scoreCompany (groupByCategory companies)) companies).

(** Step 3, the callback of [scored.map]. *)
Definition normalizeScored (totalRaw totalDisplacement : Q) (company : Scored) : Row :=
  let percentage := if ltb 0 totalRaw then rawScore company / totalRaw else 0 in
  let displacement := Math_round (totalDisplacement * percentage) in
  let f := factors company in
  {| row_name := name (Attribution.company company);
     row_industry := industry (Attribution.company company);
     row_category := category (Attribution.company company);
     row_valuation := valuation (Attribution.company company);
     displacement := displacement;
     percentage := toFixed 2 (percentage * 100);
     row_factors :=
       {| shown_category := toFixed 0 (categoryAllocation f * 100);
          shown_marketShare := toFixed 1 (marketShare f * 100);
          shown_maturity := toFixed 0 (deploymentMaturity f * 100);
          shown_type := displacementType (Attribution.company company);
          shown_operational := toFixed 0 (operationalFactor f * 100);
          shown_market := enterpriseLevel (Attribution.company company) |};
     rawFactors := f;
     row_notes := notes (Attribution.company company) |}.

Definition normalize (totalDisplacement : Q) (scored : list Scored) : list Row :=
  let totalRaw := sumQ rawScore scored in
  map (normalizeScored totalRaw totalDisplacement) scored.

(** The comparator of step 4. *)
Definition byDisplacement (a b : Row) : Z := (displacement b - displacement a)%Z.

Definition calculateDisplacementScores (companies : list Company)
    (totalDisplacement : Q) : list Ranked :=
  let scored := scoreCompanies companies in
  let normalized := normalize totalDisplacement scored in
  let sorted := sort byDisplacement normalized in
  mapi (fun index company => {| rank := index + 1; row := company |}) sorted.

End Scores.

(** [verifyTotal]: the sum of the attributed amounts and the tolerance test. *)
Definition actualTotal (results : list Ranked) : Z :=
  sumZ (fun c => displacement (row c)) results.


(** A stand-in for [Math.log10] on concrete rosters: exact at the powers of
    ten 1, 10, 100, 1000 and linear in between (0 below 1, 3 above 1000).
    The rosters evaluated with it use valuations 0, 9, 99 and 999 only, where
    it agrees with [Math.log10]; every general result is proved for an
    arbitrary [log10]. *)
Definition log10_decades (x : Q) : Q :=
  if Qle_bool x 1 then 0
  else if Qle_bool x 10 then (x - 1) / 9
  else if Qle_bool x 100 then 1 + (x - 10) / 90
  else if Qle_bool x 1000 then 2 + (x - 100) / 900
  else 3.

End Attribution.

(* ------------------------------------------------------------------------- *)
(** ** Live counter server *)
(* ------------------------------------------------------------------------- *)

Module Nowcast.
Import JS.

(** The keys of [FRED_SERIES], in the order of the object literal. *)
Inductive SeriesKey :=
  | total | information | professional | manufacturing | finance | retail.

Definition key_name (k : SeriesKey) : string :=
  match k with
  | total => "total"
  | information => "information"
  | professional => "professional"
  | manufacturing => "manufacturing"
  | finance => "finance"
  | retail => "retail"
  end.

Definition FRED_SERIES : list (SeriesKey * string) :=
  [ (total, "JTSLDL"); (information, "JTU5100LDL");
    (professional, "JTU540099LDL"); (manufacturing, "JTU3000LDL");
    (finance, "JTU5200LDL"); (retail, "JTU4400LDL") ]%string.

Record Exposure := {
  low : Q;
  mid : Q;
  high : Q
}.

(** [AI_EXPOSURE_MODEL[industry]] for the five industries; [total] has no
    entry and is never looked up. *)
Definition AI_EXPOSURE_MODEL (industry : SeriesKey) : Exposure :=
  match industry with
  | information => {| low := 0.12; mid := 0.18; high := 0.25 |}
  | professional => {| low := 0.08; mid := 0.12; high := 0.18 |}
  | finance => {| low := 0.10; mid := 0.15; high := 0.20 |}
  | manufacturing => {| low := 0.05; mid := 0.08; high := 0.12 |}
  | retail => {| low := 0.04; mid := 0.06; high := 0.10 |}
  | total => {| low := 0; mid := 0; high := 0 |}
  end.

(** [AI_EXPOSURE_MODEL.other]. *)
Definition AI_EXPOSURE_MODEL_other : Exposure :=
  {| low := 0.03; mid := 0.05; high := 0.08 |}.

(** One entry of [liveData.fred]; [None] is [null] or an absent field. *)
Record SeriesEntry := {
  value : option Q;
  average : option Q;
  date : option string;
  error : option string
}.

Record Fred := {
  fred_total : SeriesEntry;
  fred_information : SeriesEntry;
  fred_professional : SeriesEntry;
  fred_manufacturing : SeriesEntry;
  fred_finance : SeriesEntry;
  fred_retail : SeriesEntry;
  fetchedAt : option Z;
  errors : list string
}.

(** [fred[key]]. *)
Definition get (fred : Fred) (key : SeriesKey) : SeriesEntry :=
  match key with
  | total => fred_total fred
  | information => fred_information fred
  | professional => fred_professional fred
  | manufacturing => fred_manufacturing fred
  | finance => fred_finance fred
  | retail => fred_retail fred
  end.

(** [fred[key] = entry]. *)
Definition set (fred : Fred) (key : SeriesKey) (entry : SeriesEntry) : Fred :=
  {| fred_total := match key with total => entry | _ => fred_total fred end;
     fred_information :=
       match key with information => entry | _ => fred_information fred end;
     fred_professional :=
       match key with professional => entry | _ => fred_professional fred end;
     fred_manufacturing :=
       match key with manufacturing => entry | _ => fred_manufacturing fred end;
     fred_finance := match key with finance => entry | _ => fred_finance fred end;
     fred_retail := match key with retail => entry | _ => fred_retail fred end;
     fetchedAt := fetchedAt fred;
     errors := errors fred |}.

(** [liveData.calculated]; the fields absent from the initial object or from
    the recomputed one are options. *)
Record Calculated := {
  totalMonthly : Z;
  aiLow : Z;
  aiMid : Z;
  aiHigh : Z;
  aiRateLow : option Z;       (* toFixed(1) *)
  aiRateMid : option Z;
  aiRateHigh : option Z;
  perDayLow : Z;
  perDayMid : Z;
  perDayHigh : Z;
  perSecond : Q;
  historicalLow : option Z;
  historicalMid : option Z;
  historicalHigh : option Z;
  daysSinceStart : option Z;
  startDate : option string;
  historicalTotal : option Z;
  confidence : option string
}.

Record LiveData := {
  fred : Fred;
  calculated : Calculated
}.

Definition emptyEntry : SeriesEntry :=
  {| value := None; average := None; date := None; error := None |}.

(** The initial [liveData]. *)
Definition liveData0 : LiveData :=
  {| fred := {| fred_total := emptyEntry; fred_information := emptyEntry;
                fred_professional := emptyEntry; fred_manufacturing := emptyEntry;
                fred_finance := emptyEntry; fred_retail := emptyEntry;
                fetchedAt := None; errors := [] |};
     calculated := {| totalMonthly := 0; aiLow := 0; aiMid := 0; aiHigh := 0;
                      aiRateLow := None; aiRateMid := None; aiRateHigh := None;
                      perDayLow := 0; perDayMid := 0; perDayHigh := 0;
                      perSecond := 0;
                      historicalLow := None; historicalMid := None;
                      historicalHigh := None;
                      daysSinceStart := None; startDate := None;
                      historicalTotal := Some 0%Z;
                      confidence := Some "medium"%string |} |}.

(** What [fetchFredSeries] resolves to: [{ error }] with [err.message] of
    whatever was thrown ('HTTP ...', 'No data' or the runtime's text), or
    the parsed observations.  An absent message is read as the empty one:
    both are falsy, and that is all [fetchAllData] asks of them. *)
Inductive FetchResult :=
  | FetchError (message : string)
  | FetchOk (latest : Q) (average : Q) (date : string) (history : list Q).

Definition MS_PER_DAY : Z := 1000 * 60 * 60 * 24.
Definition START_DATE : Z := 1672531200000.     (* new Date('2023-01-01') *)

Definition industries : list SeriesKey :=
  [ information; professional; finance; manufacturing; retail ].

(** The running sums of the industry loop. *)
Record Sums := {
  sumLow : Q;
  sumMid : Q;
  sumHigh : Q;
  knownTotal : Q
}.

Definition addIndustry (fred : Fred) (acc : Sums) (industry : SeriesKey) : Sums :=
  match value (get fred industry) with
  | Some v =>
      if truthy v then
        let model := AI_EXPOSURE_MODEL industry in
        {| sumLow := sumLow acc + v * low model;
           sumMid := sumMid acc + v * mid model;
           sumHigh := sumHigh acc + v * high model;
           knownTotal := knownTotal acc + v |}
      else acc
  | None => acc
  end.

(** [calculateAIDisplacement], with the clock reading [now] of [new Date()]. *)
Definition calculateAIDisplacement (now : Z) (liveData : LiveData) : LiveData :=
  let fred := fred liveData in
  let totalMonthly := or_else (value (get fred total)) 0 in
  if Qeq_bool totalMonthly 0 then liveData
  else
    let acc :=
      fold_left (addIndustry fred) industries
                {| sumLow := 0; sumMid := 0; sumHigh := 0; knownTotal := 0 |} in
    let otherSectors := Math_max 0 (totalMonthly - knownTotal acc) in
    let otherModel := AI_EXPOSURE_MODEL_other in
    let aiLow := sumLow acc + otherSectors * low otherModel in
    let aiMid := sumMid acc + otherSectors * mid otherModel in
    let aiHigh := sumHigh acc + otherSectors * high otherModel in
    let perDayMid := aiMid / 30 in
    let perSecond := perDayMid / 86400 in
    let daysSinceStart :=
      Math_floor (inject_Z (now - START_DATE) / inject_Z MS_PER_DAY) in
    let historicalTotal := Math_floor (inject_Z daysSinceStart * perDayMid) in
    {| fred := fred;
       calculated :=
         {| totalMonthly := Math_round totalMonthly;
            aiLow := Math_round aiLow;
            aiMid := Math_round aiMid;
            aiHigh := Math_round aiHigh;
            aiRateLow := Some (toFixed 1 (aiLow / totalMonthly * 100));
            aiRateMid := Some (toFixed 1 (aiMid / totalMonthly * 100));
            aiRateHigh := Some (toFixed 1 (aiHigh / totalMonthly * 100));
            perDayLow := Math_round (aiLow / 30);
            perDayMid := Math_round perDayMid;
            perDayHigh := Math_round (aiHigh / 30);
            perSecond := perSecond;
            historicalLow := Some (Math_floor (inject_Z daysSinceStart * aiLow / 30));
            historicalMid := Some historicalTotal;
            historicalHigh := Some (Math_floor (inject_Z daysSinceStart * aiHigh / 30));
            daysSinceStart := Some daysSinceStart;
            startDate := Some "2023-01-01"%string;
            historicalTotal := None;
            confidence := None |} |}.

(** The body of the [for] loop of [fetchAllData]: the error lines and the
    store after one result.  [if (result.error)] asks whether the message is
    truthy: a result whose message is empty takes the branch of a delivery,
    stores its absent [latest], [average] and [date], and
    [result.latest.toLocaleString()] throws; [inr] is the store that the
    throwing body leaves behind. *)
Definition storeResult (st : list string * Fred) (kr : SeriesKey * FetchResult)
    : (list string * Fred) + Fred :=
  let (errs, fred) := st in
  let (key, result) := kr in
  match result with
  | FetchError message =>
      if truthy_string message then
        inl (errs ++ [(key_name key ++ ": " ++ message)%string],
             set fred key {| value := None; average := None; date := None;
                             error := Some message |})
      else
        inr (set fred key {| value := None; average := None; date := None;
                             error := None |})
  | FetchOk latest avg d _ =>
      inl (errs,
           set fred key {| value := Some latest; average := Some avg;
                           date := Some d; error := None |})
  end.

(** The [for] loop: the bodies in order, up to the first one that throws. *)
Fixpoint storeResults (results : list (SeriesKey * FetchResult))
    (st : list string * Fred) : (list string * Fred) + Fred :=
  match results with
  | [] => inl st
  | kr :: rest =>
      match storeResult st kr with
      | inl st' => storeResults rest st'
      | inr fred => inr fred
      end
  end.

(** [fetchAllData]: [fetch] is what [fetchFredSeries] resolves to for each
    series id, [stamp] and [now] the two clock readings.  The result is the
    new [liveData] and the returned flag; the flag is [None] when the loop
    throws and the promise rejects: the entries stored so far stay, and
    [fetchedAt], [errors] and the rates are those of before. *)
Definition fetchAllData (fetch : string -> FetchResult) (stamp now : Z)
    (liveData : LiveData) : LiveData * option bool :=
  let entries := FRED_SERIES in
  let results := map (fun e => (fst e, fetch (snd e))) entries in
  match storeResults results ([], fred liveData) with
  | inl (errs, fred1) =>
      let fred2 :=
        {| fred_total := fred_total fred1;
           fred_information := fred_information fred1;
           fred_professional := fred_professional fred1;
           fred_manufacturing := fred_manufacturing fred1;
           fred_finance := fred_finance fred1;
           fred_retail := fred_retail fred1;
           fetchedAt := Some stamp;
           errors := errs |} in
      (calculateAIDisplacement now {| fred := fred2; calculated := calculated liveData |},
       Some (List.length errs =? 0)%nat)
  | inr fred1 =>
      ({| fred := fred1; calculated := calculated liveData |}, None)
  end.

(** The counter object. *)
Record Counter := {
  this_value : Z;
  this_fraction : Q;
  this_lastTick : Z;
  this_initialized : bool
}.

(** [new Counter()] at clock reading [now]. *)
Definition newCounter (now : Z) : Counter :=
  {| this_value := 0; this_fraction := 0; this_lastTick := now;
     this_initialized := false |}.

(** [liveData.calculated.historicalMid > 0]; [undefined > 0] is false. *)
Definition historicalMid_positive (liveData : LiveData) : bool :=
  match historicalMid (calculated liveData) with
  | Some h => (0 <? h)%Z
  | None => false
  end.

Definition initialize (liveData : LiveData) (this : Counter) : Counter :=
  match historicalMid (calculated liveData) with
  | Some h =>
      if (0 <? h)%Z
      then {| this_value := h; this_fraction := this_fraction this;
              this_lastTick := this_lastTick this; this_initialized := true |}
      else this
  | None => this
  end.

(** [while (this.fraction >= 1) { this.value++; this.fraction--; }], with a
    bound on the number of iterations; [None] when the bound is used up. *)
Fixpoint carry (fuel : nat) (value : Z) (fraction : Q) : option (Z * Q) :=
  match fuel with
  | O => None
  | S fuel' =>
      if geb fraction 1 then carry fuel' (value + 1)%Z (fraction - 1)
      else Some (value, fraction)
  end.

(** [tick]: [now] is the reading of [Date.now()], [random] the value of
    [Math.random()].  The loop gets one turn more than the integer part of
    the fraction. *)
Definition tick (liveData : LiveData) (now : Z) (random : Q) (this : Counter)
    : option Counter :=
  let this1 :=
    if negb (this_initialized this) && historicalMid_positive liveData
    then initialize liveData this else this in
  let elapsed := inject_Z (now - this_lastTick this1) / 1000 in
  let rate := or_else (Some (perSecond (calculated liveData))) 0 in
  if ltb 0 rate then
    let jitter := 1 + (random - 0.5) * 0.2 in
    let fraction := this_fraction this1 + rate * elapsed * jitter in
    match carry (S (Z.to_nat (Qfloor fraction))) (this_value this1) fraction with
    | Some (v, f) =>
        Some {| this_value := v; this_fraction := f; this_lastTick := now;
                this_initialized := this_initialized this1 |}
    | None => None
    end
  else
    Some {| this_value := this_value this1; this_fraction := this_fraction this1;
            this_lastTick := now; this_initialized := this_initialized this1 |}.

(** The part of [getState] that shows the counter. *)
Record State := {
  counter : Z;
  counterDecimal : Q;
  counterLow : option Z;
  counterHigh : option Z;
  state_perSecond : Q;
  perDay : Z;
  state_perDayLow : Z;
  state_perDayHigh : Z
}.

(** [getState]; the sum [this.value + this.fraction] is the exact one here,
    and [counterDecimal_binary64] is the sum as the code computes it. *)
Definition getState (liveData : LiveData) (this : Counter) : State :=
  let calc := calculated liveData in
  {| counter := this_value this;
     counterDecimal := inject_Z (this_value this) + this_fraction this;
     counterLow := historicalLow calc;
     counterHigh := historicalHigh calc;
     state_perSecond := perSecond calc;
     perDay := perDayMid calc;
     state_perDayLow := perDayLow calc;
     state_perDayHigh := perDayHigh calc |}.

(** [this.value + this.fraction] in binary64, for a counter value that is a
    non-negative integer below 2^53. *)
Definition counterDecimal_binary64 (value : Z) (fraction : float) : float :=
  (PrimFloat.of_uint63 (Uint63.of_Z value) + fraction)%float.

(** A failure whose message is falsy: the result on which the loop throws. *)
Definition silent (result : FetchResult) : bool :=
  match result with
  | FetchError message => negb (truthy_string message)
  | FetchOk _ _ _ _ => false
  end.

(** The entry that a fetch result leaves in the store. *)
Definition entryOf (result : FetchResult) : SeriesEntry :=
  match result with
  | FetchError message =>
      {| value := None; average := None; date := None;
         error := if truthy_string message then Some message else None |}
  | FetchOk latest avg d _ =>
      {| value := Some latest; average := Some avg; date := Some d; error := None |}
  end.

(** The error lines that a list of results adds. *)
Definition errorLines (results : list (SeriesKey * FetchResult)) : list string :=
  flat_map (fun kr => match snd kr with
                      | FetchError message =>
                          [(key_name (fst kr) ++ ": " ++ message)%string]
                      | FetchOk _ _ _ _ => []
                      end) results.

(** The store after the results of a loop that does not throw. *)
Definition storedEntries (results : list (SeriesKey * FetchResult)) (fred : Fred)
    : Fred :=
  fold_left (fun f kr => set f (fst kr) (entryOf (snd kr))) results fred.

(** The results of a refresh, in the order of [FRED_SERIES]. *)
Definition resultsOf (fetch : string -> FetchResult) : list (SeriesKey * FetchResult) :=
  map (fun e => (fst e, fetch (snd e))) FRED_SERIES.

(** The series id of a key in [FRED_SERIES]. *)
Definition seriesId (key : SeriesKey) : string :=
  match key with
  | total => "JTSLDL"
  | information => "JTU5100LDL"
  | professional => "JTU540099LDL"
  | manufacturing => "JTU3000LDL"
  | finance => "JTU5200LDL"
  | retail => "JTU4400LDL"
  end.

(** The seeding step at the head of [tick]. *)
Definition seeded (liveData : LiveData) (this : Counter) : Counter :=
  if negb (this_initialized this) && historicalMid_positive liveData
  then initialize liveData this else this.

(** [n] ticks at the clock readings and random draws of [env]. *)
Fixpoint ticks (liveData : LiveData) (env : list (Z * Q)) (this : Counter)
    : option Counter :=
  match env with
  | [] => Some this
  | (now, random) :: rest =>
      match tick liveData now random this with
      | Some this' => ticks liveData rest this'
      | None => None
      end
  end.

End Nowcast.

(* ------------------------------------------------------------------------- *)
(** ** Concrete inputs *)
(* ------------------------------------------------------------------------- *)

Module Samples.
Import JS Attribution.

(** A product launched on [launch] with every multiplier at its top. *)
Definition launchedAt (launch : Z) : Company :=
  {| name := "Sample"; valuation := 9; category := "coding";
     industry := "AI Coding"; founded := 2020;
     productLaunch := Some launch; displacementType := "direct";
     operationalStatus := Some 1.0; enterpriseLevel := "enterprise";
     notes := "" |}%string.

Definition DATE_2026_02_01 : Z := 1769904000000.
Definition DATE_2025_08_05 : Z := 1754352000000.   (* 180 days before *)
Definition DATE_2025_02_06 : Z := 1738800000000.   (* 360 days before *)
Definition DATE_2024_02_12 : Z := 1707696000000.   (* 720 days before *)
Definition DATE_2023_01_01 : Z := 1672531200000.

(** Fully deployed since 2023, but with operational status 0. *)
Definition idle : Company :=
  {| name := "Idle"; valuation := 9; category := "coding";
     industry := "AI Coding"; founded := 2020;
     productLaunch := Some DATE_2023_01_01; displacementType := "direct";
     operationalStatus := Some 0; enterpriseLevel := "enterprise";
     notes := "" |}%string.

(** The same entity with operational status 1. *)
Definition active : Company :=
  {| name := "Active"; valuation := 9; category := "coding";
     industry := "AI Coding"; founded := 2020;
     productLaunch := Some DATE_2023_01_01; displacementType := "direct";
     operationalStatus := Some 1.0; enterpriseLevel := "enterprise";
     notes := "" |}%string.

(** No product yet. *)
Definition stealth : Company :=
  {| name := "Stealth"; valuation := 99; category := "coding";
     industry := "AI Research"; founded := 2024;
     productLaunch := None; displacementType := "direct";
     operationalStatus := Some 1.0; enterpriseLevel := "enterprise";
     notes := "no product yet" |}%string.

(** A displacement type and a market tier that the tables do not list. *)
Definition unlisted : Company :=
  {| name := "Unlisted"; valuation := 9; category := "creative";
     industry := "AI Research"; founded := 2020;
     productLaunch := Some DATE_2023_01_01; displacementType := "research";
     operationalStatus := Some 1.0; enterpriseLevel := "government";
     notes := "" |}%string.


(** Three entities of one category whose shares are thirds. *)
Definition thirds : list Company := [active; active; active].

End Samples.

Module Feeds.
Import JS Nowcast.

(** A refresh in which every series is delivered. *)
Definition allUp (seriesId : string) : FetchResult :=
  if String.eqb seriesId "JTSLDL" then FetchOk 1650000 1700000 "2025-11-01" []
  else if String.eqb seriesId "JTU5100LDL" then FetchOk 50000 52000 "2025-11-01" []
  else if String.eqb seriesId "JTU540099LDL" then FetchOk 400000 410000 "2025-11-01" []
  else if String.eqb seriesId "JTU3000LDL" then FetchOk 120000 118000 "2025-11-01" []
  else if String.eqb seriesId "JTU5200LDL" then FetchOk 60000 61000 "2025-11-01" []
  else FetchOk 200000 190000 "2025-11-01" [].

(** The same refresh with the information series failing. *)
Definition informationDown (seriesId : string) : FetchResult :=
  if String.eqb seriesId "JTU5100LDL" then FetchError "HTTP 500"
  else allUp seriesId.

(** The same refresh with the information series failing without a message
    (an error thrown with an empty message, or a value that has none). *)
Definition informationMute (seriesId : string) : FetchResult :=
  if String.eqb seriesId "JTU5100LDL" then FetchError EmptyString
  else allUp seriesId.

(** The same refresh with the total series failing. *)
Definition totalDown (seriesId : string) : FetchResult :=
  if String.eqb seriesId "JTSLDL" then FetchError "HTTP 500"
  else allUp seriesId.

(** A refresh in which nothing is delivered. *)
Definition allDown (seriesId : string) : FetchResult := FetchError "fetch failed".

(** A refresh that delivers a total of 1000 and nothing else. *)
Definition smallTotal (seriesId : string) : FetchResult :=
  if String.eqb seriesId "JTSLDL" then FetchOk 1000 1000 "2022-11-01" []
  else FetchError "No data".

(** A refresh that delivers a total of 1650000 and nothing else. *)
Definition largeTotal (seriesId : string) : FetchResult :=
  if String.eqb seriesId "JTSLDL" then FetchOk 1650000 1650000 "2022-11-01" []
  else FetchError "No data".

Definition CLOCK_2026_02_01 : Z := 1769904000000.
Definition CLOCK_2023_01_01 : Z := 1672531200000.
Definition CLOCK_2023_01_02 : Z := 1672617600000.

(** [liveData] after a first refresh that delivered everything. *)
Definition afterAllUp : LiveData :=
  fst (fetchAllData allUp CLOCK_2026_02_01 CLOCK_2026_02_01 liveData0).

(** [liveData] after a second refresh, six hours later, in which the
    information series failed. *)
Definition afterInformationDown : LiveData :=
  fst (fetchAllData informationDown (CLOCK_2026_02_01 + 21600000)
         (CLOCK_2026_02_01 + 21600000) afterAllUp).

(** The store after a refresh that lost the total, before the recompute. *)
Definition totalLost : LiveData :=
  {| fred := set (fred afterAllUp) total
                 {| value := None; average := None; date := None;
                    error := Some "HTTP 500"%string |};
     calculated := calculated afterAllUp |}.

(** A freshly constructed counter: value 0, not initialised. *)
Definition unseeded : Counter := newCounter CLOCK_2026_02_01.

(** A server started at noon of 2023-01-01: the first refresh delivers a
    total of 1650000 and the counter ticks 200 seconds later; the refresh
    at the start of 2023-01-02 delivers a total of 1000, and the counter
    ticks again 100 milliseconds after it. *)
Definition NOON : Z := CLOCK_2023_01_01 + 43200000.
Definition firstRefresh : LiveData :=
  fst (fetchAllData largeTotal NOON NOON liveData0).
Definition secondRefresh : LiveData :=
  fst (fetchAllData smallTotal (CLOCK_2023_01_02 + 100) (CLOCK_2023_01_02 + 100)
         firstRefresh).
Definition firstTick : option Counter :=
  tick firstRefresh (NOON + 200000) 0.5 (initialize firstRefresh (newCounter NOON)).
Definition secondTick : option Counter :=
  match firstTick with
  | Some this => tick secondRefresh (CLOCK_2023_01_02 + 200) 0.5 this
  | None => None
  end.

End Feeds.

(* ------------------------------------------------------------------------- *)
(** ** Health probe *)
(* ------------------------------------------------------------------------- *)

Module Health.
Import JS Nowcast.

(** The answer of [GET /api/health]; [clients] is [clients.size]. *)
Record Report := {
  status : string;
  health_counter : Z;
  health_clients : nat;
  dataStatus : string
}.

Definition health (liveData : LiveData) (this : Counter) (clients : nat) : Report :=
  {| status := "ok";
     health_counter := this_value this;
     health_clients := clients;
     dataStatus :=
       if (List.length (errors (fred liveData)) =? 0)%nat then "ok" else "partial" |}%string.

End Health.

(* ------------------------------------------------------------------------- *)
(** ** Browser client *)
(* ------------------------------------------------------------------------- *)

Module Client.
Import JS Nowcast.

(** The [state] object of the page; the socket itself is left out. *)
Record ClientState := {
  ui_connected : bool;
  ui_counter : Z;
  ui_counterDecimal : Q;
  ui_targetCounter : Q;
  ui_perSecond : Q;
  ui_perDay : Z;
  ui_perDayLow : Z;
  ui_perDayHigh : Z;
  ui_lastTick : Z;
  ui_animating : bool;
  ui_companiesRendered : bool
}.

(** The initial [state], created at clock reading [now]. *)
Definition state0 (now : Z) : ClientState :=
  {| ui_connected := false; ui_counter := 0; ui_counterDecimal := 0;
     ui_targetCounter := 0; ui_perSecond := 0; ui_perDay := 0;
     ui_perDayLow := 0; ui_perDayHigh := 0; ui_lastTick := now;
     ui_animating := false; ui_companiesRendered := false |}.

(** [handleData(data)] at clock reading [now]: the new state and, when
    [renderCompanies] is called, the total it is called with.  [data] is the
    payload of an 'init' or 'tick' message, the server's [getState]. *)
Definition handleData (now : Z) (data : State) (state : ClientState)
    : ClientState * option Z :=
  let target := or_else (Some (counterDecimal data)) (inject_Z (counter data)) in
  let first := (ui_counter state =? 0)%Z && (0 <? counter data)%Z in
  let render := first && negb (ui_companiesRendered state) in
  ({| ui_connected := ui_connected state;
      ui_counter := if first then counter data else ui_counter state;
      ui_counterDecimal := if first then target else ui_counterDecimal state;
      ui_targetCounter := target;
      ui_perSecond := or_else (Some (state_perSecond data)) 0;
      ui_perDay := perDay data;
      ui_perDayLow := state_perDayLow data;
      ui_perDayHigh := state_perDayHigh data;
      ui_lastTick := now;
      ui_animating := ui_animating state;
      ui_companiesRendered := if first then true else ui_companiesRendered state |},
   if render then Some (counter data) else None).

(** What [updateDisplay] writes into the counter element: the integer part
    and the two decimals.  The element's content is [Some] of such a pair
    once written, [None] while it holds the markup of the page. *)
Definition Html : Type := option (Z * Z).

Definition html_eqb (a b : Html) : bool :=
  match a, b with
  | Some (i, d), Some (i', d') => (i =? i')%Z && (d =? d')%Z
  | None, None => true
  | _, _ => false
  end.

(** [updateDisplay()]: [el_counter] is the counter element ([None] when the
    page has none); the result is the state, the element and whether the
    flash branch was taken (the counter raised, and the flash started if the
    page has the element for it). *)
Definition updateDisplay (state : ClientState) (el_counter : option Html)
    : ClientState * option Html * bool :=
  match el_counter with
  | None => (state, None, false)
  | Some innerHTML =>
      let integer := Math_floor (ui_counterDecimal state) in
      let decimal :=
        Math_floor ((ui_counterDecimal state - inject_Z integer) * 100) in
      let html : Html := Some (integer, decimal) in
      if negb (html_eqb innerHTML html) then
        if (ui_counter state <? integer)%Z then
          ({| ui_connected := ui_connected state;
              ui_counter := integer;
              ui_counterDecimal := ui_counterDecimal state;
              ui_targetCounter := ui_targetCounter state;
              ui_perSecond := ui_perSecond state;
              ui_perDay := ui_perDay state;
              ui_perDayLow := ui_perDayLow state;
              ui_perDayHigh := ui_perDayHigh state;
              ui_lastTick := ui_lastTick state;
              ui_animating := ui_animating state;
              ui_companiesRendered := ui_companiesRendered state |},
           Some html, true)
        else (state, Some html, false)
      else (state, Some innerHTML, false)
  end.

(** The two updates of [state.counterDecimal] in [animate], at clock
    reading [now]. *)
Definition advance (now : Z) (state : ClientState) : Q :=
  let elapsed := inject_Z (now - ui_lastTick state) / 1000 in
  let diff := ui_targetCounter state - ui_counterDecimal state in
  let smoothed :=
    if ltb 0.0001 (Qabs diff)
    then ui_counterDecimal state + diff * 0.12
    else ui_counterDecimal state in
  if ltb 0.2 elapsed && ltb 0 (ui_perSecond state) then
    let extrapolated :=
      ui_targetCounter state + (ui_perSecond state * elapsed * 0.5) in
    Math_max smoothed extrapolated
  else smoothed.

(** One frame of [animate()]. *)
Definition animate (now : Z) (state : ClientState) (el_counter : option Html)
    : ClientState * option Html * bool :=
  if negb (ui_animating state) then (state, el_counter, false)
  else
    updateDisplay
      {| ui_connected := ui_connected state;
         ui_counter := ui_counter state;
         ui_counterDecimal := advance now state;
         ui_targetCounter := ui_targetCounter state;
         ui_perSecond := ui_perSecond state;
         ui_perDay := ui_perDay state;
         ui_perDayLow := ui_perDayLow state;
         ui_perDayHigh := ui_perDayHigh state;
         ui_lastTick := ui_lastTick state;
         ui_animating := ui_animating state;
         ui_companiesRendered := ui_companiesRendered state |}
      el_counter.

(** The messages of one connection handled in order: the final state and
    the totals [renderCompanies] was called with. *)
Fixpoint handleAll (messages : list (Z * State)) (state : ClientState)
    : ClientState * list Z :=
  match messages with
  | [] => (state, [])
  | (now, data) :: rest =>
      let (state1, rendered) := handleData now data state in
      let (state2, renders) := handleAll rest state1 in
      (state2, match rendered with Some t => t :: renders | None => renders end)
  end.

End Client.

(* ------------------------------------------------------------------------- *)
(** ** In-memory data store *)
(* ------------------------------------------------------------------------- *)

Module Store.
Import JS.

(** An event: its id, [new Date(e.event_time).getTime()] (a valid date) and
    the rest of the object. *)
Record Event := {
  id : string;
  event_time : Z;
  body : string
}.

(** The part of [this.memory] that the event operations use.  The
    operations update it in the same way with and without Redis, whose
    failures are caught and logged. *)
Definition Events : Type := list Event.

Definition MS_PER_DAY : Z := 24 * 60 * 60 * 1000.

(** [addEvent(event)] at clock reading [now]: the events kept and the
    returned flag. *)
Definition addEvent (now : Z) (event : Event) (events : Events) : Events * bool :=
  let exists_ := existsb (fun e => String.eqb (id e) (id event)) events in
  if exists_ then (events, false)
  else
    let pushed := events ++ [event] in
    let cutoff := (now - 90 * MS_PER_DAY)%Z in
    (filter (fun e => (cutoff <? event_time e)%Z) pushed, true).

(** [arr.slice(start)] for an integer [start]. *)
Definition slice {A : Type} (start : Z) (l : list A) : list A :=
  let len := Z.of_nat (List.length l) in
  let from := if (start <? 0)%Z then Z.max (len + start) 0 else Z.min start len in
  skipn (Z.to_nat from) l.

(** The [options] of [getEvents]; [None] is an absent field. *)
Record Options := {
  days : option Z;
  limit : option Z
}.

Definition default (x : option Z) (d : Z) : Z :=
  match x with Some v => v | None => d end.

(** [getEvents(options)] at clock reading [now]. *)
Definition getEvents (now : Z) (options : Options) (events : Events) : Events :=
  let days := default (days options) 7 in
  let limit := default (limit options) 100 in
  let cutoff := (now - days * MS_PER_DAY)%Z in
  slice (- limit) (filter (fun e => (cutoff <? event_time e)%Z) events).

(** [getRecentEvents(days)]; [None] is the default argument. *)
Definition getRecentEvents (now : Z) (days : option Z) (events : Events) : Events :=
  getEvents now {| days := Some (default days 7); limit := None |} events.

Definition getEventCount (events : Events) : nat := List.length events.

End Store.

(* ------------------------------------------------------------------------- *)
(** ** Further concrete inputs *)
(* ------------------------------------------------------------------------- *)

Module MoreSamples.
Import JS Attribution Nowcast Client Store Samples Feeds.

Definition DATE_2020_01_01 : Z := 1577836800000.


(** A product from before the AI era. *)
Definition veteran : Company :=
  {| name := "Veteran"; valuation := 99; category := "coding";
     industry := "AI Coding"; founded := 2015;
     productLaunch := Some DATE_2020_01_01; displacementType := "augmentation";
     operationalStatus := Some 0.5; enterpriseLevel := "prosumer";
     notes := "" |}%string.

(** A seeded counter in the middle of a unit. *)
Definition running : Counter :=
  {| this_value := 4831073; this_fraction := 1 # 2;
     this_lastTick := CLOCK_2026_02_01; this_initialized := true |}.

(** A page whose display lags ten units behind the target, 100 ms after the
    last message. *)
Definition lagging : ClientState :=
  {| ui_connected := true; ui_counter := 4831063; ui_counterDecimal := 4831063.5;
     ui_targetCounter := 4831073.5; ui_perSecond := 0.05; ui_perDay := 4287;
     ui_perDayLow := 2753; ui_perDayHigh := 6550;
     ui_lastTick := CLOCK_2026_02_01; ui_animating := true;
     ui_companiesRendered := true |}.

(** Three stored events, the oldest first, and two new ones. *)
Definition event (i : string) (time : Z) : Event :=
  {| id := i; event_time := time; body := "" |}.

Definition stored : Events :=
  [ event "a" (CLOCK_2026_02_01 - 80 * Store.MS_PER_DAY);
    event "b" (CLOCK_2026_02_01 - 5 * Store.MS_PER_DAY);
    event "c" (CLOCK_2026_02_01 - 1 * Store.MS_PER_DAY) ]%string.

End MoreSamples.

(* ------------------------------------------------------------------------- *)
(** ** Notions used to state properties of the recompute *)
(* ------------------------------------------------------------------------- *)

Module Notions.
Import JS Nowcast.

(** What the industry loop keeps true of its running sums. *)
Definition sumsOrdered (acc : Sums) : Prop :=
  0 <= sumLow acc /\ sumLow acc <= sumMid acc /\ sumMid acc <= sumHigh acc /\
  0 <= knownTotal acc /\ 0.05 * knownTotal acc <= sumMid acc.

(** The exact low, mid and high estimates that the recompute rounds. *)
Definition estimates (liveData : LiveData) (t : Q) : Q * Q * Q :=
  let acc := fold_left (addIndustry (fred liveData)) industries
               {| sumLow := 0; sumMid := 0; sumHigh := 0; knownTotal := 0 |} in
  let otherSectors := Math_max 0 (t - knownTotal acc) in
  (sumLow acc + otherSectors * low AI_EXPOSURE_MODEL_other,
   sumMid acc + otherSectors * mid AI_EXPOSURE_MODEL_other,
   sumHigh acc + otherSectors * high AI_EXPOSURE_MODEL_other).

End Notions.

(* ------------------------------------------------------------------------- *)
(** ** Attribution model with inherited properties and NaN *)
(* ------------------------------------------------------------------------- *)

(** [Attribution] looks a key up among the own entries of a table.  That is
    what [table[key]] does for every key except the names that an object
    literal inherits from [Object.prototype]: for those it answers with the
    inherited member, a function (or the prototype itself), which is truthy,
    is no number and has no [reduce].  This module is the scoring with the
    lookups as the code performs them, and with NaN among the numbers; on
    rosters that use none of the inherited names as a key it returns what
    [Attribution] returns ([PrototypeProps.plain_roster_scores]). *)
Module WithPrototype.
Import JS.

(** The properties of [Object.prototype]. *)
Definition prototypeNames : list string :=
  [ "constructor"; "hasOwnProperty"; "isPrototypeOf"; "propertyIsEnumerable";
    "toLocaleString"; "toString"; "valueOf"; "__proto__";
    "__defineGetter__"; "__defineSetter__";
    "__lookupGetter__"; "__lookupSetter__" ]%string.

Definition inherited (key : string) : bool :=
  existsb (String.eqb key) prototypeNames.

(** The value of [table[key]]: the table's own entry, else the inherited
    member of that name, else [undefined]. *)
Inductive Property (A : Type) :=
  | Own (v : A)
  | Member
  | Undefined.
Arguments Own {A} v.
Arguments Member {A}.
Arguments Undefined {A}.

Definition property {A : Type} (key : string) (table : list (string * A))
    : Property A :=
  match lookup key table with
  | Some v => Own v
  | None => if inherited key then Member else Undefined
  end.

(** A number, or NaN ([None]). *)
Definition Number : Type := option Q.

Definition times (a b : Number) : Number :=
  match a, b with
  | Some x, Some y => Some (x * y)
  | _, _ => None
  end.

Definition plus (a b : Number) : Number :=
  match a, b with
  | Some x, Some y => Some (x + y)
  | _, _ => None
  end.

(** [a / b] for a divisor that is not 0. *)
Definition over (a b : Number) : Number :=
  match a, b with
  | Some x, Some y => Some (x / y)
  | _, _ => None
  end.

(** [a > 0]; a comparison with NaN is false. *)
Definition positive (a : Number) : bool :=
  match a with
  | Some x => ltb 0 x
  | None => false
  end.

(** The value of [TABLE[key] || d] for a table of numbers: a number, or the
    inherited member. *)
Inductive Multiplier :=
  | Num (q : Q)
  | Inherited.

Definition or_default (p : Property Q) (d : Q) : Multiplier :=
  match p with
  | Own v => if truthy v then Num v else Num d
  | Member => Inherited
  | Undefined => Num d
  end.

(** The operand of a product: a function or an object converts to NaN. *)
Definition toNumber (m : Multiplier) : Number :=
  match m with
  | Num q => Some q
  | Inherited => None
  end.

Record Factors := {
  categoryAllocation : Q;
  marketShare : Q;
  deploymentMaturity : Q;
  displacementTypeMult : Multiplier;
  operationalFactor : Q;
  enterpriseFactor : Multiplier
}.

Record Scored := {
  company : Attribution.Company;
  factors : Factors;
  rawScore : Number
}.

(** An element of [normalized]; [None] stands for NaN and for the string
    'NaN' of [toFixed]. *)
Record Row := {
  row_name : string;
  row_industry : string;
  row_category : string;
  row_valuation : Q;
  displacement : option Z;
  percentage : option Z;
  row_factors : Attribution.ShownFactors;
  rawFactors : Factors;
  row_notes : string
}.

Record Ranked := {
  rank : Z;
  row : Row
}.

(** What the callback of [companies.map] does for one entity. *)
Inductive Outcome :=
  | Warned (warning : string)      (* console.warn, return null *)
  | Returned (scored : Scored)
  | Thrown.                        (* TypeError *)

Section Scores.

Variable log10 : Q -> Q.

(** Step 2, the callback of [companies.map].  For a category that is the
    name of an inherited member, [category] is that member and passes the
    test [!category]; [byCategory[company.category]] is the member too, and
    the call of its [reduce], which it does not have, throws. *)
Definition scoreCompany (byCategory : list (string * list Attribution.Company))
    (company : Attribution.Company) : Outcome :=
  match property (Attribution.category company) Attribution.DISPLACEMENT_CATEGORIES with
  | Undefined =>
      Warned ("Unknown category: " ++ Attribution.category company ++ " for "
              ++ Attribution.name company)%string
  | Member => Thrown
  | Own category =>
      let categoryAllocation := Attribution.allocation category in
      match property (Attribution.category company) byCategory with
      | Own categoryCompanies =>
          let categoryTotalVal :=
            sumQ (fun c => log10 (Attribution.valuation c + 1)) categoryCompanies in
          let companyVal := log10 (Attribution.valuation company + 1) in
          let marketShare :=
            if ltb 0 categoryTotalVal then companyVal / categoryTotalVal else 0 in
          let deploymentMaturity := Attribution.calculateDeploymentMaturity company in
          let displacementTypeMult :=
            or_default (property (Attribution.displacementType company)
                                 Attribution.DISPLACEMENT_TYPE_MULT) 0.5 in
          let operationalFactor := or_else (Attribution.operationalStatus company) 1.0 in
          let enterpriseFactor :=
            or_default (property (Attribution.enterpriseLevel company)
                                 Attribution.ENTERPRISE_MULT) 0.6 in
          let rawScore :=
            times (times (times (Some (categoryAllocation
                                       * marketShare
                                       * deploymentMaturity))
                                (toNumber displacementTypeMult))
                         (Some operationalFactor))
                  (toNumber enterpriseFactor) in
          Returned {| company := company;
                      factors := {| categoryAllocation := categoryAllocation;
                                    marketShare := marketShare;
                                    deploymentMaturity := deploymentMaturity;
                                    displacementTypeMult := displacementTypeMult;
                                    operationalFactor := operationalFactor;
                                    enterpriseFactor := enterpriseFactor |};
                      rawScore := rawScore |}
      | Member => Thrown
      | Undefined => Thrown
      end
  end.

(** [companies.map(callback)] stops at the first callback that throws. *)
Fixpoint throws (l : list Outcome) : bool :=
  match l with
  | [] => false
  | Thrown :: _ => true
  | _ :: rest => throws rest
  end.

(** What [console.warn] received, in order, up to a throw. *)
Fixpoint warned (l : list Outcome) : list string :=
  match l with
  | [] => []
  | Warned w :: rest => w :: warned rest
  | Returned _ :: rest => warned rest
  | Thrown :: _ => []
  end.

(** [.filter(Boolean)]. *)
Fixpoint filterBoolean (l : list Outcome) : list Scored :=
  match l with
  | [] => []
  | Returned s :: rest => s :: filterBoolean rest
  | _ :: rest => filterBoolean rest
  end.

Definition outcomes (companies : list Attribution.Company) : list Outcome :=
  map (scoreCompany (Attribution.groupByCategory companies)) companies.

Definition warnings (companies : list Attribution.Company) : list string :=
  warned (outcomes companies).

Definition scoreCompanies (companies : list Attribution.Company) : list Scored :=
  filterBoolean (outcomes companies).

(** [scored.reduce((sum, c) => sum + c.rawScore, 0)]. *)
Definition totalRaw (scored : list Scored) : Number :=
  fold_left (fun sum c => plus sum (rawScore c)) scored (Some 0).

(** Step 3, the callback of [scored.map]. *)
Definition normalizeScored (totalRaw : Number) (totalDisplacement : Q)
    (company : Scored) : Row :=
  let percentage :=
    if positive totalRaw then over (rawScore company) totalRaw else Some 0 in
  let displacement :=
    option_map Math_round (times (Some totalDisplacement) percentage) in
  let f := factors company in
  let c := WithPrototype.company company in
  {| row_name := Attribution.name c;
     row_industry := Attribution.industry c;
     row_category := Attribution.category c;
     row_valuation := Attribution.valuation c;
     displacement := displacement;
     percentage := option_map (toFixed 2) (times percentage (Some 100));
     row_factors :=
       {| Attribution.shown_category := toFixed 0 (categoryAllocation f * 100);
          Attribution.shown_marketShare := toFixed 1 (marketShare f * 100);
          Attribution.shown_maturity := toFixed 0 (deploymentMaturity f * 100);
          Attribution.shown_type := Attribution.displacementType c;
          Attribution.shown_operational := toFixed 0 (operationalFactor f * 100);
          Attribution.shown_market := Attribution.enterpriseLevel c |};
     rawFactors := f;
     row_notes := Attribution.notes c |}.

Definition normalize (totalDisplacement : Q) (scored : list Scored) : list Row :=
  map (normalizeScored (totalRaw scored) totalDisplacement) scored.

(** The comparator of step 4; [sort] reads a NaN difference as 0. *)
Definition byDisplacement (a b : Row) : Z :=
  match displacement b, displacement a with
  | Some x, Some y => (x - y)%Z
  | _, _ => 0%Z
  end.

(** [calculateDisplacementScores]; [None] when it throws. *)
Definition calculateDisplacementScores (companies : list Attribution.Company)
    (totalDisplacement : Q) : option (list Ranked) :=
  if throws (outcomes companies) then None
  else
    let scored := scoreCompanies companies in
    let normalized := normalize totalDisplacement scored in
    let sorted := sort byDisplacement normalized in
    Some (mapi (fun index company => {| rank := index + 1; row := company |}) sorted).

End Scores.

(** No category, displacement type or market tier of the roster is the name
    of an inherited member. *)
Definition plainKeys (companies : list Attribution.Company) : bool :=
  forallb (fun c => negb (inherited (Attribution.category c))
                    && negb (inherited (Attribution.displacementType c))
                    && negb (inherited (Attribution.enterpriseLevel c)))
          companies.

(** The records of [Attribution] among the ones above. *)
Definition ofFactors (f : Attribution.Factors) : Factors :=
  {| categoryAllocation := Attribution.categoryAllocation f;
     marketShare := Attribution.marketShare f;
     deploymentMaturity := Attribution.deploymentMaturity f;
     displacementTypeMult := Num (Attribution.displacementTypeMult f);
     operationalFactor := Attribution.operationalFactor f;
     enterpriseFactor := Num (Attribution.enterpriseFactor f) |}.

Definition ofScored (s : Attribution.Scored) : Scored :=
  {| company := Attribution.company s;
     factors := ofFactors (Attribution.factors s);
     rawScore := Some (Attribution.rawScore s) |}.

Definition ofOutcome (o : string + Attribution.Scored) : Outcome :=
  match o with
  | inl w => Warned w
  | inr s => Returned (ofScored s)
  end.

Definition ofRow (r : Attribution.Row) : Row :=
  {| row_name := Attribution.row_name r;
     row_industry := Attribution.row_industry r;
     row_category := Attribution.row_category r;
     row_valuation := Attribution.row_valuation r;
     displacement := Some (Attribution.displacement r);
     percentage := Some (Attribution.percentage r);
     row_factors := Attribution.row_factors r;
     rawFactors := ofFactors (Attribution.rawFactors r);
     row_notes := Attribution.row_notes r |}.

Definition ofRanked (r : Attribution.Ranked) : Ranked :=
  {| rank := Attribution.rank r; row := ofRow (Attribution.row r) |}.

End WithPrototype.

(** Rosters with names that the tables do not list. *)
Module PrototypeSamples.
Import Attribution Samples.

(** A displacement type that is the name of an inherited member. *)
Definition builder : Company :=
  {| name := "Builder"; valuation := 9; category := "creative";
     industry := "AI Research"; founded := 2020;
     productLaunch := Some DATE_2023_01_01; displacementType := "constructor";
     operationalStatus := Some 1.0; enterpriseLevel := "enterprise";
     notes := "" |}%string.

(** A category that is the name of an inherited member. *)
Definition printer : Company :=
  {| name := "Printer"; valuation := 9; category := "toString";
     industry := "AI Research"; founded := 2020;
     productLaunch := Some DATE_2023_01_01; displacementType := "direct";
     operationalStatus := Some 1.0; enterpriseLevel := "enterprise";
     notes := "" |}%string.

(** An unlisted type and tier in a category that is not listed either. *)
Definition outsider : Company :=
  {| name := "Outsider"; valuation := 9; category := "robotics";
     industry := "Robots"; founded := 2020;
     productLaunch := Some DATE_2023_01_01; displacementType := "research";
     operationalStatus := Some 1.0; enterpriseLevel := "government";
     notes := "" |}%string.

End PrototypeSamples.

(* ------------------------------------------------------------------------- *)
(** ** Notions used to state properties of the result *)
(* ------------------------------------------------------------------------- *)

Module Ranking.
Import JS Attribution.





End Ranking.

(* ------------------------------------------------------------------------- *)
(** ** Properties of the deployment maturity *)
(* ------------------------------------------------------------------------- *)

Module MaturityProps.
Import JS Attribution Samples.

(** Division by a numeral, in the form linear arithmetic accepts. *)
Ltac qconst :=
  unfold Qdiv in *;
  repeat match goal with
         | |- context [ / inject_Z (Zpos ?p) ] =>
             change (/ inject_Z (Zpos p)) with (1 # p) in *
         | H : context [ / inject_Z (Zpos ?p) ] |- _ =>
             change (/ inject_Z (Zpos p)) with (1 # p) in *
         | |- context [ / (Zpos ?p # 1) ] =>
             change (/ (Zpos p # 1)) with (1 # p) in *
         | H : context [ / (Zpos ?p # 1) ] |- _ =>
             change (/ (Zpos p # 1)) with (1 # p) in *
         end.

Lemma floor_quotient (a b : Z) :
  Math_floor (inject_Z a / inject_Z b) = (a / b)%Z.
Proof. unfold Math_floor. symmetry. apply Zdiv_Qdiv. Qed.

Lemma MONTHS_SINCE_AI_ERA_value : MONTHS_SINCE_AI_ERA = 38%Z.
Proof. reflexivity. Qed.

Lemma effectiveMonths_unfold (launch : Z) :
  effectiveMonths launch =
  if (launch <? AI_ERA_START)%Z
  then Z.min ((CURRENT_DATE - launch) / MS_PER_MONTH) 38
  else ((CURRENT_DATE - launch) / MS_PER_MONTH)%Z.
Proof.
  unfold effectiveMonths. rewrite floor_quotient, MONTHS_SINCE_AI_ERA_value.
  reflexivity.
Qed.

(** Earlier launches are credited at least as many months. *)
Lemma effectiveMonths_antitone (l1 l2 : Z) :
  (l2 <= l1)%Z -> (l1 <= CURRENT_DATE)%Z ->
  (effectiveMonths l1 <= effectiveMonths l2)%Z.
Proof.
  intros Hle Hnow. rewrite !effectiveMonths_unfold.
  assert (Hdiv : ((CURRENT_DATE - l1) / MS_PER_MONTH
                  <= (CURRENT_DATE - l2) / MS_PER_MONTH)%Z).
  { apply Z.div_le_mono; [reflexivity | lia]. }
  destruct (Z.ltb_spec l1 AI_ERA_START) as [H1 | H1];
    destruct (Z.ltb_spec l2 AI_ERA_START) as [H2 | H2]; try lia.
  assert (Hcap : ((CURRENT_DATE - l1) / MS_PER_MONTH <= 38)%Z).
  { change 38%Z with ((CURRENT_DATE - AI_ERA_START) / MS_PER_MONTH)%Z.
    apply Z.div_le_mono; [reflexivity | lia]. }
  lia.
Qed.

Lemma adoptionCurve_monotone (m1 m2 : Z) :
  (m1 <= m2)%Z -> adoptionCurve m1 <= adoptionCurve m2.
Proof.
  intros Hle. unfold adoptionCurve.
  repeat match goal with
         | |- context [ (?a <=? ?b)%Z ] =>
             let H := fresh "H" in
             destruct (Z.leb_spec a b) as [H | H];
             [ rewrite Zle_Qle in H | rewrite Zlt_Qlt in H ]
         end;
    rewrite Zle_Qle in Hle; unfold inject_Z in *; qconst; lra.
Qed.

Lemma maturity_of_launch (c : Company) (launch : Z) :
  productLaunch c = Some launch -> (launch <= CURRENT_DATE)%Z ->
  calculateDeploymentMaturity c = adoptionCurve (effectiveMonths launch).
Proof.
  intros Hl Hnow. unfold calculateDeploymentMaturity. rewrite Hl.
  destruct (Z.ltb_spec CURRENT_DATE launch); [lia | reflexivity].
Qed.

(** C5.  A product launched [t1] milliseconds before [CURRENT_DATE] has
    maturity exactly 0.2, 0.5, 0.75 and 1.0 when its effective months are 0,
    6, 12 and 24, and a product launched no later ([t1 <= t2] elapsed) has at
    least its maturity: the maturity is non-decreasing in the elapsed time. *)
Theorem deploymentMaturity_boundaries_and_monotone
    (c1 c2 : Company) (t1 t2 : Z) :
  productLaunch c1 = Some (CURRENT_DATE - t1)%Z ->
  productLaunch c2 = Some (CURRENT_DATE - t2)%Z ->
  (0 <= t1)%Z -> (t1 <= t2)%Z ->
  (effectiveMonths (CURRENT_DATE - t1) = 0%Z ->
     calculateDeploymentMaturity c1 == 0.2) /\
  (effectiveMonths (CURRENT_DATE - t1) = 6%Z ->
     calculateDeploymentMaturity c1 == 0.5) /\
  (effectiveMonths (CURRENT_DATE - t1) = 12%Z ->
     calculateDeploymentMaturity c1 == 0.75) /\
  (effectiveMonths (CURRENT_DATE - t1) = 24%Z ->
     calculateDeploymentMaturity c1 == 1.0) /\
  calculateDeploymentMaturity c1 <= calculateDeploymentMaturity c2.
Proof.
  intros H1 H2 H0 Hle.
  rewrite (maturity_of_launch c1 _ H1) by lia.
  rewrite (maturity_of_launch c2 _ H2) by lia.
  repeat split; try (intros ->; reflexivity).
  apply adoptionCurve_monotone, effectiveMonths_antitone; lia.
Qed.

Lemma deploymentMaturity_boundaries_and_monotone_witness :
  productLaunch (launchedAt DATE_2025_08_05)
    = Some (CURRENT_DATE - 180 * 86400000)%Z /\
  productLaunch (launchedAt DATE_2024_02_12)
    = Some (CURRENT_DATE - 720 * 86400000)%Z /\
  (0 <= 180 * 86400000)%Z /\ (180 * 86400000 <= 720 * 86400000)%Z /\
  effectiveMonths (CURRENT_DATE - 180 * 86400000) = 6%Z /\
  calculateDeploymentMaturity (launchedAt DATE_2025_08_05) == 0.5 /\
  calculateDeploymentMaturity (launchedAt DATE_2025_08_05)
    <= calculateDeploymentMaturity (launchedAt DATE_2024_02_12).
Proof.
  pose proof (deploymentMaturity_boundaries_and_monotone
                (launchedAt DATE_2025_08_05) (launchedAt DATE_2024_02_12)
                (180 * 86400000) (720 * 86400000)
                eq_refl eq_refl ltac:(lia) ltac:(lia)) as (_ & H6 & _ & _ & Hm).
  split; [reflexivity | split; [reflexivity | ]].
  split; [lia | split; [lia | ]].
  split; [reflexivity | split; [apply H6; reflexivity | exact Hm]].
Defined.

(** The four boundary months are reached by launch dates 0, 180, 360 and 720
    days before [CURRENT_DATE]. *)
Example boundary_launch_dates :
  map (fun d => effectiveMonths d)
      [DATE_2026_02_01; DATE_2025_08_05; DATE_2025_02_06; DATE_2024_02_12]
  = [0; 6; 12; 24]%Z.
Proof. reflexivity. Qed.

(** In binary64 the four boundary values are the doubles 0.2, 0.5, 0.75
    and 1.0 themselves, and the curve does not decrease from one month to
    the next. *)
Lemma adoptionCurve_binary64_boundaries :
  map adoptionCurve_binary64 [0; 6; 12; 24]%Z = [0.2; 0.5; 0.75; 1.0]%float /\
  nondecreasing_binary64
    (map (fun k => adoptionCurve_binary64 (Z.of_nat k)) (seq 0 26)) = true.
Proof. split; vm_compute; reflexivity. Qed.

End MaturityProps.


(* ------------------------------------------------------------------------- *)
(** ** Properties of the array primitives *)
(* ------------------------------------------------------------------------- *)

Module ArrayProps.
Import JS.

Section DescendingByKey.
Context {A : Type} (key : A -> Z).

(** The comparator [(a, b) => key(b) - key(a)]. *)
Let cmp (a b : A) : Z := (key b - key a)%Z.

Lemma insert_permutation (x : A) (l : list A) :
  Permutation (insert cmp x l) (x :: l).
Proof.
  induction l as [| y rest IH]; simpl.
  - apply Permutation_refl.
  - destruct (0 <? cmp x y)%Z.
    + transitivity (y :: x :: rest); [now apply perm_skip | apply perm_swap].
    + apply Permutation_refl.
Qed.

Lemma sort_permutation (l : list A) : Permutation (sort cmp l) l.
Proof.
  induction l as [| x rest IH]; simpl.
  - apply perm_nil.
  - transitivity (x :: sort cmp rest);
      [apply insert_permutation | now apply perm_skip].
Qed.





End DescendingByKey.









Lemma mapi_from_project {A B : Type} (f : Z -> A -> B) (g : B -> A)
    (i : Z) (l : list A) :
  (forall k x, g (f k x) = x) -> map g (mapi_from f i l) = l.
Proof.
  intros Hg. revert i.
  induction l as [| x rest IH]; intros i; [reflexivity |].
  simpl. now rewrite Hg, IH.
Qed.

End ArrayProps.

(* ------------------------------------------------------------------------- *)
(** ** Properties of the attribution *)
(* ------------------------------------------------------------------------- *)

Module ScoreProps.
Import JS Attribution Samples Ranking ArrayProps.

Lemma Math_round_comp (x y : Q) : x == y -> Math_round x = Math_round y.
Proof. intros H. unfold Math_round. apply Qfloor_comp. now rewrite H. Qed.


Lemma lookup_None {A : Type} (key : string) (table : list (string * A)) :
  ~ In key (keys table) -> lookup key table = None.
Proof.
  induction table as [| [k v] rest IH]; intros Hn; [reflexivity |].
  simpl in *. destruct (String.eqb_spec key k) as [-> | _].
  - exfalso. apply Hn. now left.
  - apply IH. intros Hin. apply Hn. now right.
Qed.

Section AnyLog.
Variable log10 : Q -> Q.

Lemma scoreCompany_company (G : list (string * list Company)) (c : Company) (s : Scored) :
  scoreCompany log10 G c = inr s -> company s = c.
Proof.
  unfold scoreCompany.
  destruct (lookup (category c) DISPLACEMENT_CATEGORIES); [| discriminate].
  intros H. injection H as <-. reflexivity.
Qed.

Lemma scoreCompany_known (G : list (string * list Company)) (c : Company) :
  hasCategory c = true -> exists s, scoreCompany log10 G c = inr s.
Proof.
  unfold hasCategory, scoreCompany.
  destruct (lookup (category c) DISPLACEMENT_CATEGORIES); [| discriminate].
  intros _. eexists. reflexivity.
Qed.


Lemma filterBoolean_In (l : list (string + Scored)) (s : Scored) :
  In s (filterBoolean l) <-> In (inr s) l.
Proof.
  induction l as [| [w | s'] rest IH]; simpl.
  - tauto.
  - rewrite IH. split; [tauto | intros [H | H]; [discriminate | assumption]].
  - rewrite IH. split; intros [H | H]; auto; [left; congruence |].
    injection H as ->. now left.
Qed.

Lemma scoreCompanies_In (companies : list Company) (s : Scored) :
  In s (scoreCompanies log10 companies) <->
  exists c, In c companies /\
            scoreCompany log10 (groupByCategory companies) c = inr s.
Proof.
  unfold scoreCompanies. rewrite filterBoolean_In, in_map_iff.
  split; intros (c & H1 & H2); exists c; auto.
Qed.


(** The raw score is the product of the six factors. *)
Lemma scoreCompany_rawScore (G : list (string * list Company)) (c : Company) (s : Scored) :
  scoreCompany log10 G c = inr s ->
  rawScore s = categoryAllocation (factors s) * marketShare (factors s)
               * deploymentMaturity (factors s) * displacementTypeMult (factors s)
               * operationalFactor (factors s) * enterpriseFactor (factors s)
  /\ deploymentMaturity (factors s) = calculateDeploymentMaturity c
  /\ displacementTypeMult (factors s)
     = or_else (lookup (displacementType c) DISPLACEMENT_TYPE_MULT) 0.5
  /\ operationalFactor (factors s) = or_else (operationalStatus c) 1.0
  /\ enterpriseFactor (factors s)
     = or_else (lookup (enterpriseLevel c) ENTERPRISE_MULT) 0.6.
Proof.
  unfold scoreCompany.
  destruct (lookup (category c) DISPLACEMENT_CATEGORIES); [| discriminate].
  intros H. injection H as <-. simpl. repeat split.
Qed.

(** An operational status of 0 is falsy: the factor is the default 1.0. *)
Lemma zero_operational_status_factor (G : list (string * list Company))
    (c : Company) (s : Scored) :
  scoreCompany log10 G c = inr s -> operationalStatus c = Some 0 ->
  operationalFactor (factors s) = 1.0.
Proof.
  intros Hs H0. destruct (scoreCompany_rawScore G c s Hs) as (_ & _ & _ & Hop & _).
  rewrite Hop, H0. reflexivity.
Qed.


(** The rows of the result are the normalized rows, reordered. *)
Lemma result_rows (companies : list Company) (T : Q) :
  map row (calculateDisplacementScores log10 companies T)
  = sort byDisplacement (normalize T (scoreCompanies log10 companies)).
Proof.
  unfold calculateDisplacementScores, mapi.
  now apply mapi_from_project.
Qed.

Lemma result_permutation (companies : list Company) (T : Q) :
  Permutation (map row (calculateDisplacementScores log10 companies T))
              (normalize T (scoreCompanies log10 companies)).
Proof. rewrite result_rows. apply (sort_permutation displacement). Qed.


Lemma ltb_true (a b : Q) : a < b -> ltb a b = true.
Proof.
  intros H. unfold ltb. destruct (Qle_bool b a) eqn:E; [| reflexivity].
  apply Qle_bool_imp_le in E. lra.
Qed.








End AnyLog.



(** Equal amounts keep the roster order, and the ranks still differ. *)
Example ties_keep_roster_order :
  map (fun r => (rank r, row_name (row r), displacement (row r)))
      (calculateDisplacementScores log10_decades [stealth; active; idle; unlisted] 10)
  = [(1, "Active", 4); (2, "Idle", 4); (3, "Unlisted", 2); (4, "Stealth", 0)]%Z%string.
Proof. reflexivity. Qed.

(** C1.  What the code does with an operational status of 0: the factor
    falls back to 1.0, and an entity identical to a fully operational one
    except for its status 0 is attributed the same amount, 500 of 1000. *)
Theorem zero_operational_status_scored_as_one :
  or_else (operationalStatus idle) 1.0 = 1.0 /\
  map (fun s => operationalFactor (factors s))
      (scoreCompanies log10_decades [idle; active]) = [1.0; 1.0] /\
  map (fun r => (rank r, row_name (row r), displacement (row r)))
      (calculateDisplacementScores log10_decades [idle; active] 1000)
  = [(1, "Idle", 500); (2, "Active", 500)]%Z%string.
Proof. repeat split. Qed.


(** The three thirds of 1000 round to 333 each: the sum misses the target. *)
Example thirds_total :
  actualTotal (calculateDisplacementScores log10_decades thirds 1000) = 999%Z.
Proof. reflexivity. Qed.

End ScoreProps.

(* ------------------------------------------------------------------------- *)
(** ** Properties of the refresh and of the recompute *)
(* ------------------------------------------------------------------------- *)

Module RefreshProps.
Import JS Nowcast Feeds.

Lemma FRED_SERIES_ids (key : SeriesKey) (id : string) :
  In (key, id) FRED_SERIES <-> id = seriesId key.
Proof.
  split.
  - simpl. intros H.
    repeat (destruct H as [H | H]; [injection H as <- <-; reflexivity |]).
    destruct H.
  - intros ->. destruct key; simpl; tauto.
Qed.

Lemma storeResult_step (errs : list string) (fred : Fred)
    (key : SeriesKey) (result : FetchResult) :
  silent result = false ->
  storeResult (errs, fred) (key, result)
  = inl (errs ++ errorLines [(key, result)], set fred key (entryOf result)).
Proof.
  destruct result as [message | latest avg d h]; simpl.
  - destruct (truthy_string message); [reflexivity | discriminate].
  - now rewrite app_nil_r.
Qed.

Lemma storeResult_silent (errs : list string) (fred : Fred)
    (key : SeriesKey) (result : FetchResult) :
  silent result = true ->
  storeResult (errs, fred) (key, result) = inr (set fred key (entryOf result)).
Proof.
  destruct result as [message | latest avg d h]; simpl; [| discriminate].
  destruct (truthy_string message); [discriminate | reflexivity].
Qed.

Lemma storeResults_completes (results : list (SeriesKey * FetchResult))
    (errs : list string) (fred : Fred) :
  existsb (fun kr => silent (snd kr)) results = false ->
  storeResults results (errs, fred)
  = inl (errs ++ errorLines results, storedEntries results fred).
Proof.
  revert errs fred.
  induction results as [| [key result] rest IH]; intros errs fred H.
  - simpl. now rewrite app_nil_r.
  - cbn [existsb snd] in H. apply orb_false_iff in H. destruct H as [Hr Hrest].
    cbn [storeResults]. rewrite (storeResult_step _ _ _ _ Hr), (IH _ _ Hrest).
    rewrite <- app_assoc. unfold errorLines, storedEntries. simpl. now rewrite app_nil_r.
Qed.

Lemma storeResults_throws (results : list (SeriesKey * FetchResult))
    (errs : list string) (fred : Fred) :
  existsb (fun kr => silent (snd kr)) results = true ->
  exists fred', storeResults results (errs, fred) = inr fred' /\
                fetchedAt fred' = fetchedAt fred /\ errors fred' = errors fred.
Proof.
  revert errs fred.
  induction results as [| [key result] rest IH]; intros errs fred H;
    [discriminate |].
  cbn [existsb snd] in H. cbn [storeResults].
  destruct (silent result) eqn:Hr.
  - rewrite (storeResult_silent _ _ _ _ Hr).
    exists (set fred key (entryOf result)). now split.
  - rewrite (storeResult_step _ _ _ _ Hr).
    destruct (IH (errs ++ errorLines [(key, result)])
                 (set fred key (entryOf result)) H) as (fred' & E & Hf & He).
    exists fred'. now split.
Qed.

(** The recompute never touches the fetched series. *)
Lemma calculateAIDisplacement_fred (now : Z) (liveData : LiveData) :
  fred (calculateAIDisplacement now liveData) = fred liveData.
Proof.
  unfold calculateAIDisplacement.
  destruct (Qeq_bool _ 0); reflexivity.
Qed.

Lemma resultsOf_silent (fetch : string -> FetchResult) :
  (existsb (fun kr => silent (snd kr)) (resultsOf fetch) = true)
  <-> (exists key, silent (fetch (seriesId key)) = true).
Proof.
  split.
  - intros H. apply existsb_exists in H. destruct H as ([key result] & Hin & Hs).
    apply in_map_iff in Hin. destruct Hin as ([key' id] & E & Hin).
    apply FRED_SERIES_ids in Hin. simpl in E. injection E as <- <-.
    subst id. now exists key'.
  - intros [key Hs]. apply existsb_exists. exists (key, fetch (seriesId key)).
    split; [| exact Hs]. apply in_map_iff. exists (key, seriesId key).
    split; [reflexivity | now apply FRED_SERIES_ids].
Qed.

Lemma resultsOf_not_silent (fetch : string -> FetchResult) :
  (forall key, silent (fetch (seriesId key)) = false) ->
  existsb (fun kr => silent (snd kr)) (resultsOf fetch) = false.
Proof.
  intros H. destruct (existsb _ _) eqn:E; [| reflexivity].
  apply resultsOf_silent in E. destruct E as [key Hs]. now rewrite H in Hs.
Qed.

(** A refresh in which no failure has a falsy message runs to its end. *)
Lemma fetchAllData_completes (fetch : string -> FetchResult) (stamp now : Z)
    (liveData : LiveData) :
  (forall key, silent (fetch (seriesId key)) = false) ->
  fetchAllData fetch stamp now liveData
  = (calculateAIDisplacement now
       {| fred :=
            {| fred_total := fred_total (storedEntries (resultsOf fetch) (fred liveData));
               fred_information :=
                 fred_information (storedEntries (resultsOf fetch) (fred liveData));
               fred_professional :=
                 fred_professional (storedEntries (resultsOf fetch) (fred liveData));
               fred_manufacturing :=
                 fred_manufacturing (storedEntries (resultsOf fetch) (fred liveData));
               fred_finance := fred_finance (storedEntries (resultsOf fetch) (fred liveData));
               fred_retail := fred_retail (storedEntries (resultsOf fetch) (fred liveData));
               fetchedAt := Some stamp;
               errors := errorLines (resultsOf fetch) |};
          calculated := calculated liveData |},
     Some (List.length (errorLines (resultsOf fetch)) =? 0)%nat).
Proof.
  intros H. unfold fetchAllData. fold (resultsOf fetch).
  now rewrite (storeResults_completes _ _ _ (resultsOf_not_silent _ H)).
Qed.

(** A refresh in which some failure has a falsy message throws, and leaves
    the time stamp, the error list and the rates as they were. *)
Lemma fetchAllData_throws (fetch : string -> FetchResult) (stamp now : Z)
    (liveData : LiveData) :
  (exists key, silent (fetch (seriesId key)) = true) ->
  snd (fetchAllData fetch stamp now liveData) = None /\
  fetchedAt (fred (fst (fetchAllData fetch stamp now liveData)))
    = fetchedAt (fred liveData) /\
  errors (fred (fst (fetchAllData fetch stamp now liveData)))
    = errors (fred liveData) /\
  calculated (fst (fetchAllData fetch stamp now liveData)) = calculated liveData.
Proof.
  intros H. apply resultsOf_silent in H.
  destruct (storeResults_throws _ [] (fred liveData) H) as (fred' & E & Hf & He).
  unfold fetchAllData. fold (resultsOf fetch). rewrite E. simpl.
  repeat split; assumption.
Qed.


Lemma fetchAllData_errors (fetch : string -> FetchResult) (stamp now : Z)
    (liveData : LiveData) :
  (forall key, silent (fetch (seriesId key)) = false) ->
  errors (fred (fst (fetchAllData fetch stamp now liveData)))
  = errorLines (resultsOf fetch)
  /\ fetchedAt (fred (fst (fetchAllData fetch stamp now liveData))) = Some stamp
  /\ snd (fetchAllData fetch stamp now liveData)
     = Some (List.length (errorLines (resultsOf fetch)) =? 0)%nat.
Proof.
  intros H. rewrite (fetchAllData_completes _ _ _ _ H).
  simpl fst. simpl snd. rewrite calculateAIDisplacement_fred. simpl.
  repeat split.
Qed.


Lemma silent_true (result : FetchResult) :
  silent result = true <-> result = FetchError EmptyString.
Proof.
  destruct result as [[| a message] | latest avg d h]; simpl;
    split; intros H; try reflexivity; try discriminate.
Qed.





(** The refresh that throws has stored the series in front of the mute one
    and the absent fields of the mute one; the series behind it keep the
    entries of the refresh before. *)
Example mute_failure_stops_the_loop :
  let before :=
    fst (fetchAllData allDown CLOCK_2026_02_01 CLOCK_2026_02_01 liveData0) in
  let after :=
    fst (fetchAllData informationMute (CLOCK_2026_02_01 + 21600000)
           (CLOCK_2026_02_01 + 21600000) before) in
  value (get (fred after) total) = Some 1650000 /\
  get (fred after) information = emptyEntry /\
  get (fred after) retail = get (fred before) retail /\
  List.length (errors (fred after)) = 6%nat /\
  calculated after = calculated liveData0.
Proof. repeat split. Qed.

(** With four of five industries and the residual, the mid rate of the
    refresh that lost the information series is still positive. *)
Example partial_refresh_rates :
  aiMid (calculated afterInformationDown) = 122100%Z /\
  perDayMid (calculated afterInformationDown) = 4070%Z /\
  0 < perSecond (calculated afterInformationDown).
Proof. repeat split. Qed.

(** C6.  When the total series has no value or the value 0 at the time of
    the recompute, [liveData] is returned as it was: every field of
    [calculated] keeps its previous value. *)
Theorem recompute_without_total_keeps_rates (now : Z) (liveData : LiveData) :
  (value (get (fred liveData) total) = None \/
   exists v, value (get (fred liveData) total) = Some v /\ v == 0) ->
  calculateAIDisplacement now liveData = liveData /\
  calculated (calculateAIDisplacement now liveData) = calculated liveData.
Proof.
  intros H.
  assert (Hsame : calculateAIDisplacement now liveData = liveData).
  { unfold calculateAIDisplacement.
    destruct H as [-> | (v & -> & Hv)]; simpl or_else.
    - reflexivity.
    - unfold truthy. apply Qeq_bool_iff in Hv. rewrite Hv. reflexivity. }
  split; [exact Hsame | now rewrite Hsame].
Qed.

Lemma recompute_without_total_keeps_rates_witness :
  value (get (fred totalLost) total) = None /\
  calculateAIDisplacement (CLOCK_2026_02_01 + 21600000) totalLost = totalLost /\
  perDayMid (calculated (calculateAIDisplacement (CLOCK_2026_02_01 + 21600000) totalLost))
    = 4287%Z.
Proof.
  destruct (recompute_without_total_keeps_rates (CLOCK_2026_02_01 + 21600000)
              totalLost (or_introl eq_refl)) as [Hsame Hcalc].
  split; [reflexivity | split; [exact Hsame |]].
  rewrite Hcalc. reflexivity.
Defined.

(** With a total, the recompute replaces the rates. *)
Example recompute_with_total :
  let calc := calculated (calculateAIDisplacement CLOCK_2026_02_01
                            {| fred := fred afterAllUp;
                               calculated := calculated liveData0 |}) in
  (totalMonthly calc, aiLow calc, aiMid calc, aiHigh calc, perDayMid calc,
   historicalMid calc, daysSinceStart calc)
  = (1650000, 82600, 128600, 196500, 4287, Some 4831073, Some 1127)%Z.
Proof. reflexivity. Qed.

(** The refresh that loses the total keeps the rates of the refresh before. *)
Example total_down_keeps_rates :
  calculated (fst (fetchAllData totalDown (CLOCK_2026_02_01 + 21600000)
                     (CLOCK_2026_02_01 + 21600000) afterAllUp))
  = calculated afterAllUp.
Proof. reflexivity. Qed.

(** A refresh in which every series fails keeps the rates too, and the
    counter goes on at the last known rate. *)
Example all_down_keeps_rates :
  let stale := fst (fetchAllData allDown (CLOCK_2026_02_01 + 21600000)
                      (CLOCK_2026_02_01 + 21600000) afterAllUp) in
  calculated stale = calculated afterAllUp /\
  List.length (errors (fred stale)) = 6%nat /\
  option_map this_value
    (match tick stale (CLOCK_2026_02_01 + 100) 0.5 unseeded with
     | Some this => tick stale (CLOCK_2026_02_01 + 60100) 0.5 this
     | None => None
     end) = Some 4831075%Z.
Proof. repeat split. Qed.

End RefreshProps.

(* ------------------------------------------------------------------------- *)
(** ** Properties of the counter *)
(* ------------------------------------------------------------------------- *)

Module CounterProps.
Import JS Nowcast Feeds MoreSamples.

Lemma geb_true (a b : Q) : geb a b = true <-> b <= a.
Proof. unfold geb. apply Qle_bool_iff. Qed.

Lemma geb_false (a b : Q) : geb a b = false <-> a < b.
Proof.
  unfold geb. split.
  - intros H. apply Qnot_le_lt. intros Hle.
    apply Qle_bool_iff in Hle. congruence.
  - intros H. destruct (Qle_bool b a) eqn:E; [| reflexivity].
    apply Qle_bool_iff in E. lra.
Qed.

Lemma ltb_spec (a b : Q) : ltb a b = true <-> a < b.
Proof.
  unfold ltb. rewrite negb_true_iff. apply (geb_false a b).
Qed.

(** With more turns than the fraction is large, the carry loop ends: it
    has moved the integer part of the fraction into the value. *)
Lemma carry_terminates (fuel : nat) (v : Z) (f : Q) :
  0 <= f -> f < inject_Z (Z.of_nat fuel) ->
  exists v' f',
    carry fuel v f = Some (v', f') /\
    (v <= v')%Z /\ 0 <= f' /\ f' < 1 /\
    inject_Z v' + f' == inject_Z v + f.
Proof.
  revert v f. induction fuel as [| fuel IH]; intros v f H0 Hlt.
  - simpl in Hlt. exfalso. change (inject_Z 0) with 0 in Hlt. lra.
  - cbn [carry]. destruct (geb f 1) eqn:E.
    + apply geb_true in E.
      assert (Hn : inject_Z (Z.of_nat (S fuel)) == inject_Z (Z.of_nat fuel) + 1).
      { rewrite Nat2Z.inj_succ. unfold Z.succ. now rewrite inject_Z_plus. }
      rewrite Hn in Hlt.
      destruct (IH (v + 1)%Z (f - 1)) as (v' & f' & Hc & Hv & Hf0 & Hf1 & Hsum);
        [lra | lra |].
      exists v', f'.
      split; [exact Hc | split; [lia | split; [exact Hf0 | split; [exact Hf1 |]]]].
      rewrite Hsum, inject_Z_plus. change (inject_Z 1) with 1. ring.
    + apply geb_false in E.
      exists v, f.
      split; [reflexivity | split; [lia | split; [exact H0 | split; [exact E |]]]].
      reflexivity.
Qed.

(** A fraction below 1 is left alone. *)
Lemma carry_below_one (fuel : nat) (v : Z) (f : Q) :
  f < 1 -> carry (S fuel) v f = Some (v, f).
Proof. intros H. cbn [carry]. apply geb_false in H. now rewrite H. Qed.

(** The turns that [tick] grants are enough. *)
Lemma tick_fuel_enough (f : Q) :
  0 <= f -> f < inject_Z (Z.of_nat (S (Z.to_nat (Qfloor f)))).
Proof.
  intros H0.
  assert (Hfl : (0 <= Qfloor f)%Z).
  { change 0%Z with (Qfloor 0). now apply Qfloor_resp_le. }
  rewrite Nat2Z.inj_succ, Z2Nat.id by assumption.
  apply Qlt_floor.
Qed.

Lemma seeded_cases (liveData : LiveData) (this : Counter) :
  (seeded liveData this = this /\
   (this_initialized this = true \/ historicalMid_positive liveData = false))
  \/
  (exists h, historicalMid (calculated liveData) = Some h /\ (0 < h)%Z /\
             this_initialized this = false /\
             seeded liveData this
             = {| this_value := h; this_fraction := this_fraction this;
                  this_lastTick := this_lastTick this;
                  this_initialized := true |}).
Proof.
  unfold seeded, historicalMid_positive, initialize.
  destruct (this_initialized this); simpl; [left; auto |].
  destruct (historicalMid (calculated liveData)) as [h |]; [| left; auto].
  destruct (Z.ltb_spec 0 h); [right | left; auto].
  exists h. auto.
Qed.

Lemma tick_unfold (liveData : LiveData) (now : Z) (random : Q) (this : Counter) :
  tick liveData now random this =
  let this1 := seeded liveData this in
  let rate := perSecond (calculated liveData) in
  if ltb 0 rate then
    let fraction :=
      this_fraction this1
      + rate * (inject_Z (now - this_lastTick this1) / 1000)
        * (1 + (random - 0.5) * 0.2) in
    match carry (S (Z.to_nat (Qfloor fraction))) (this_value this1) fraction with
    | Some (v, f) =>
        Some {| this_value := v; this_fraction := f; this_lastTick := now;
                this_initialized := this_initialized this1 |}
    | None => None
    end
  else
    Some {| this_value := this_value this1; this_fraction := this_fraction this1;
            this_lastTick := now; this_initialized := this_initialized this1 |}.
Proof.
  unfold tick, seeded, or_else, truthy, ltb.
  destruct (Qeq_bool (perSecond (calculated liveData)) 0) eqn:E; [| reflexivity].
  simpl negb. cbv zeta.
  apply Qeq_bool_iff in E.
  assert (H0 : Qle_bool (perSecond (calculated liveData)) 0 = true).
  { apply Qle_bool_iff. rewrite E. apply Qle_refl. }
  rewrite H0. reflexivity.
Qed.

Lemma seeded_facts (liveData : LiveData) (this : Counter) :
  (this_initialized this = false ->
   forall h, historicalMid (calculated liveData) = Some h -> (0 < h)%Z ->
             (this_value this <= h)%Z) ->
  (this_value this <= this_value (seeded liveData this))%Z /\
  this_fraction (seeded liveData this) = this_fraction this /\
  this_lastTick (seeded liveData this) = this_lastTick this /\
  (this_initialized (seeded liveData this) = false ->
   historicalMid_positive liveData = false).
Proof.
  intros Hseed.
  destruct (seeded_cases liveData this) as [[-> Hc] | (h & Hh & Hpos & Hi & ->)].
  - repeat split; try lia.
    intros Hi. destruct Hc as [Hc | Hc]; [congruence | exact Hc].
  - simpl. repeat split; [now apply Hseed | discriminate].
Qed.

(** C4, amended.  A tick at a clock reading not before the last one, on a
    counter whose value is non-negative and whose fraction is in [0,1),
    returns; afterwards the value is a non-negative integer not below the
    value before, and the fraction is again in [0,1) - provided the tick does
    not seed the counter with a historical total below its value (the counter
    is initialised, or no positive historical total is available, or the
    value does not exceed it).  The proviso holds again after the tick. *)
Theorem tick_keeps_counter_invariant
    (liveData : LiveData) (now : Z) (random : Q) (this : Counter) :
  (0 <= this_value this)%Z ->
  0 <= this_fraction this -> this_fraction this < 1 ->
  (this_lastTick this <= now)%Z ->
  0 <= random -> random < 1 ->
  (this_initialized this = false ->
   forall h, historicalMid (calculated liveData) = Some h -> (0 < h)%Z ->
             (this_value this <= h)%Z) ->
  exists this',
    tick liveData now random this = Some this' /\
    (0 <= this_value this')%Z /\
    (this_value this <= this_value this')%Z /\
    0 <= this_fraction this' /\ this_fraction this' < 1 /\
    this_lastTick this' = now /\
    (this_initialized this' = false ->
     forall h, historicalMid (calculated liveData) = Some h -> (0 < h)%Z ->
               (this_value this' <= h)%Z).
Proof.
  intros Hv Hf0 Hf1 Hclock Hr0 Hr1 Hseed.
  rewrite tick_unfold. cbv zeta.
  destruct (seeded_facts liveData this Hseed) as (Hv1 & Hfr & Hlast & Hinit).
  assert (Hclosed : this_initialized (seeded liveData this) = false ->
                    forall h, historicalMid (calculated liveData) = Some h ->
                              (0 < h)%Z -> False).
  { intros Hi h Hh Hpos. specialize (Hinit Hi).
    unfold historicalMid_positive in Hinit. rewrite Hh in Hinit.
    apply Z.ltb_ge in Hinit. lia. }
  rewrite Hfr, Hlast.
  destruct (ltb 0 (perSecond (calculated liveData))) eqn:Hrate.
  - apply ltb_spec in Hrate.
    set (elapsed := inject_Z (now - this_lastTick this) / 1000).
    set (jitter := 1 + (random - 0.5) * 0.2).
    assert (He : 0 <= elapsed).
    { unfold elapsed.
      assert (H : inject_Z 0 <= inject_Z (now - this_lastTick this))
        by (rewrite <- Zle_Qle; lia).
      change (inject_Z 0) with 0 in H. unfold Qdiv.
      apply Qmult_le_0_compat; [exact H | discriminate]. }
    assert (Hj : 0 <= jitter) by (unfold jitter; lra).
    assert (Hadd : 0 <= perSecond (calculated liveData) * elapsed * jitter).
    { apply Qmult_le_0_compat; [apply Qmult_le_0_compat |]; auto.
      now apply Qlt_le_weak. }
    set (fraction := this_fraction this
                     + perSecond (calculated liveData) * elapsed * jitter).
    assert (Hfrac : 0 <= fraction) by (unfold fraction; lra).
    destruct (carry_terminates (S (Z.to_nat (Qfloor fraction)))
                (this_value (seeded liveData this)) fraction Hfrac
                (tick_fuel_enough fraction Hfrac))
      as (v' & f' & Hc & Hle & Hf0' & Hf1' & _).
    rewrite Hc. eexists. split; [reflexivity |]. simpl.
    split; [lia | split; [lia | split; [exact Hf0' | split; [exact Hf1' |]]]].
    split; [reflexivity |].
    intros Hi h Hh Hpos. destruct (Hclosed Hi h Hh Hpos).
  - eexists. split; [reflexivity |]. simpl.
    split; [lia | split; [lia | split; [exact Hf0 | split; [exact Hf1 |]]]].
    split; [reflexivity |].
    intros Hi h Hh Hpos. destruct (Hclosed Hi h Hh Hpos).
Qed.

Lemma tick_keeps_counter_invariant_witness :
  (0 <= this_value unseeded)%Z /\
  0 <= this_fraction unseeded /\ this_fraction unseeded < 1 /\
  (this_lastTick unseeded <= CLOCK_2026_02_01 + 100)%Z /\
  exists this',
    tick afterAllUp (CLOCK_2026_02_01 + 100) 0.5 unseeded = Some this' /\
    (this_value unseeded <= this_value this')%Z /\
    0 <= this_fraction this' /\ this_fraction this' < 1.
Proof.
  assert (Hseed : this_initialized unseeded = false ->
                  forall h, historicalMid (calculated afterAllUp) = Some h ->
                            (0 < h)%Z -> (this_value unseeded <= h)%Z).
  { intros _ h _ Hpos. simpl. lia. }
  destruct (tick_keeps_counter_invariant afterAllUp (CLOCK_2026_02_01 + 100)
              0.5 unseeded ltac:(simpl; lia) ltac:(simpl; lra) ltac:(simpl; lra)
              ltac:(vm_compute; discriminate) ltac:(lra) ltac:(lra)
              Hseed)
    as (this' & Ht & _ & Hle & Hf0 & Hf1 & _).
  split; [simpl; lia | split; [simpl; lra | split; [simpl; lra |]]].
  split; [vm_compute; discriminate |].
  exists this'. split; [exact Ht | split; [exact Hle | split; [exact Hf0 | exact Hf1]]].
Defined.

(** C4, as stated, fails: every tick of this run has a non-negative rate
    and elapsed time and starts with a fraction in [0,1), and the value goes
    from 6 down to 2, because the second tick seeds the counter with the
    historical total 1 of the refresh before it. *)
Lemma tick_seeding_decreases_value :
  historicalMid (calculated firstRefresh) = Some 0%Z /\
  0 < perSecond (calculated firstRefresh) /\
  option_map (fun this => (this_value this, this_initialized this)) firstTick
    = Some (6%Z, false) /\
  historicalMid (calculated secondRefresh) = Some 1%Z /\
  0 < perSecond (calculated secondRefresh) /\
  option_map (fun this => (this_value this, this_initialized this)) secondTick
    = Some (2%Z, true).
Proof. repeat split. Qed.

Lemma tick_zero_elapsed_step (liveData : LiveData) (random : Q) (this : Counter) :
  this_fraction this < 1 ->
  (this_initialized this = true \/ historicalMid_positive liveData = false) ->
  exists this',
    tick liveData (this_lastTick this) random this = Some this' /\
    this_value this' = this_value this /\
    this_fraction this' == this_fraction this /\
    this_lastTick this' = this_lastTick this /\
    this_initialized this' = this_initialized this.
Proof.
  intros Hf Hinit. rewrite tick_unfold. cbv zeta.
  destruct (seeded_cases liveData this) as [[Hs _] | (h & Hh & Hpos & Hi & _)].
  2:{ exfalso. destruct Hinit as [Hinit | Hinit]; [congruence |].
      unfold historicalMid_positive in Hinit. rewrite Hh in Hinit.
      apply Z.ltb_ge in Hinit. lia. }
  rewrite Hs, Z.sub_diag.
  destruct (ltb 0 (perSecond (calculated liveData))).
  - assert (Hsame : this_fraction this
                    + perSecond (calculated liveData) * (inject_Z 0 / 1000)
                      * (1 + (random - 0.5) * 0.2)
                    == this_fraction this).
    { change (inject_Z 0) with 0. unfold Qdiv. ring. }
    rewrite carry_below_one by now rewrite Hsame.
    eexists. split; [reflexivity |]. simpl.
    split; [reflexivity | split; [exact Hsame | split; reflexivity]].
  - eexists. split; [reflexivity |]. simpl.
    split; [reflexivity | split; [reflexivity | split; reflexivity]].
Qed.

(** A tick at the clock reading of the last one does what the seeding step
    at its head does, and nothing else. *)
Lemma tick_zero_elapsed_seeding (liveData : LiveData) (random : Q) (this : Counter) :
  this_fraction this < 1 ->
  exists this',
    tick liveData (this_lastTick this) random this = Some this' /\
    this_value this' = this_value (seeded liveData this) /\
    this_fraction this' == this_fraction this /\
    this_lastTick this' = this_lastTick this /\
    this_initialized this' = this_initialized (seeded liveData this).
Proof.
  intros Hf. rewrite tick_unfold. cbv zeta.
  assert (Hs : this_fraction (seeded liveData this) = this_fraction this /\
               this_lastTick (seeded liveData this) = this_lastTick this).
  { destruct (seeded_cases liveData this) as [[-> _] | (h & _ & _ & _ & ->)];
      split; reflexivity. }
  destruct Hs as [Hfr Hl]. rewrite Hfr, Hl, Z.sub_diag.
  destruct (ltb 0 (perSecond (calculated liveData))).
  - assert (Hsame : this_fraction this
                    + perSecond (calculated liveData) * (inject_Z 0 / 1000)
                      * (1 + (random - 0.5) * 0.2)
                    == this_fraction this).
    { change (inject_Z 0) with 0. unfold Qdiv. ring. }
    rewrite carry_below_one by now rewrite Hsame.
    eexists. split; [reflexivity |]. simpl.
    split; [reflexivity | split; [exact Hsame | split; reflexivity]].
  - eexists. split; [reflexivity |]. simpl.
    split; [reflexivity | split; [reflexivity | split; reflexivity]].
Qed.

(** Once the counter is initialised, or while no positive historical total
    is available, ticks at the clock reading of the last one change neither
    the value nor the fraction. *)
Lemma ticks_zero_elapsed_settled
    (liveData : LiveData) (draws : list Q) (this : Counter) :
  this_fraction this < 1 ->
  (this_initialized this = true \/ historicalMid_positive liveData = false) ->
  exists this',
    ticks liveData (map (fun random => (this_lastTick this, random)) draws) this
      = Some this' /\
    this_value this' = this_value this /\
    this_fraction this' == this_fraction this.
Proof.
  revert this. induction draws as [| random rest IH]; intros this Hf Hinit.
  - exists this. split; [reflexivity | split; reflexivity].
  - cbn [map ticks].
    destruct (tick_zero_elapsed_step liveData random this Hf Hinit)
      as (next & -> & Hv & Hfr & Hl & Hi).
    destruct (IH next) as (this' & Ht & Hv' & Hfr').
    + now rewrite Hfr.
    + now rewrite Hi.
    + exists this'. rewrite Hl in Ht.
      split; [exact Ht | split; [congruence | now rewrite Hfr']].
Qed.

(** C9, amended.  On a counter whose fraction is below 1, any number of
    ticks at the clock reading of its last tick returns and leaves the
    fraction as it was, whatever the rate and the random draws.  The value
    stays as it was too when the counter is initialised or no positive
    historical total is available; on a counter that is not initialised
    while the historical total is positive, the first of these ticks sets
    the value to that total, and the later ones leave it there. *)
Theorem tick_zero_elapsed_is_noop
    (liveData : LiveData) (draws : list Q) (this : Counter) :
  this_fraction this < 1 ->
  exists this',
    ticks liveData (map (fun random => (this_lastTick this, random)) draws) this
      = Some this' /\
    this_fraction this' == this_fraction this /\
    (this_initialized this = true \/ historicalMid_positive liveData = false ->
     this_value this' = this_value this) /\
    (forall h : Z,
       this_initialized this = false ->
       historicalMid (calculated liveData) = Some h -> (0 < h)%Z ->
       draws <> [] -> this_value this' = h).
Proof.
  intros Hf. destruct draws as [| random rest].
  - exists this. split; [reflexivity | split; [reflexivity | split]].
    + reflexivity.
    + intros h _ _ _ H. now destruct H.
  - cbn [map ticks].
    destruct (tick_zero_elapsed_seeding liveData random this Hf)
      as (next & -> & Hv & Hfr & Hl & Hi).
    assert (Hsettled : this_initialized next = true \/
                       historicalMid_positive liveData = false).
    { rewrite Hi.
      destruct (seeded_cases liveData this) as [[-> Hc] | (h & _ & _ & _ & ->)];
        [exact Hc | now left]. }
    destruct (ticks_zero_elapsed_settled liveData rest next) as (this' & Ht & Hv' & Hfr').
    + now rewrite Hfr.
    + exact Hsettled.
    + exists this'. rewrite Hl in Ht.
      split; [exact Ht | split; [now rewrite Hfr' | split]].
      * intros Hinit. rewrite Hv', Hv.
        destruct (seeded_cases liveData this) as [[-> _] | (h & Hh & Hpos & Hi' & _)];
          [reflexivity |].
        exfalso. destruct Hinit as [Hinit | Hinit]; [congruence |].
        unfold historicalMid_positive in Hinit. rewrite Hh in Hinit.
        apply Z.ltb_ge in Hinit. lia.
      * intros h Hi' Hh Hpos _. rewrite Hv', Hv.
        destruct (seeded_cases liveData this) as [[_ Hc] | (h' & Hh' & _ & _ & ->)].
        -- exfalso. destruct Hc as [Hc | Hc]; [congruence |].
           unfold historicalMid_positive in Hc. rewrite Hh in Hc.
           apply Z.ltb_ge in Hc. lia.
        -- simpl. congruence.
Qed.

(** At a positive rate: a counter in the middle of a unit stays at 4831073
    and a half, and a freshly constructed one is moved to the historical
    total 4831073 and stays there. *)
Lemma tick_zero_elapsed_is_noop_witness :
  0 < perSecond (calculated afterAllUp) /\
  this_fraction running < 1 /\ this_initialized running = true /\
  (exists this',
     ticks afterAllUp [(CLOCK_2026_02_01, 0.1); (CLOCK_2026_02_01, 0.9)] running
       = Some this' /\
     this_value this' = 4831073%Z /\ this_fraction this' == 1 # 2) /\
  this_fraction unseeded < 1 /\ this_initialized unseeded = false /\
  (exists this',
     ticks afterAllUp [(CLOCK_2026_02_01, 0.1); (CLOCK_2026_02_01, 0.9)] unseeded
       = Some this' /\
     this_value this' = 4831073%Z /\ this_fraction this' == 0).
Proof.
  destruct (tick_zero_elapsed_is_noop afterAllUp [0.1; 0.9] running
              ltac:(reflexivity))
    as (this1 & Ht1 & Hf1 & Hv1 & _).
  destruct (tick_zero_elapsed_is_noop afterAllUp [0.1; 0.9] unseeded
              ltac:(reflexivity))
    as (this2 & Ht2 & Hf2 & _ & Hv2).
  split; [reflexivity | split; [reflexivity | split; [reflexivity | split]]].
  - exists this1. split; [exact Ht1 | split; [| exact Hf1]].
    exact (Hv1 (or_introl eq_refl)).
  - split; [reflexivity | split; [reflexivity |]].
    exists this2. split; [exact Ht2 | split; [| exact Hf2]].
    apply (Hv2 4831073%Z eq_refl eq_refl); [reflexivity | discriminate].
Defined.

(** The same on a seeded counter with a positive rate. *)
Example tick_zero_elapsed_seeded :
  option_map (fun this => (this_value this, Qred (this_fraction this)))
    (match tick afterAllUp (CLOCK_2026_02_01 + 100) 0.5 unseeded with
     | Some this =>
         ticks afterAllUp [((CLOCK_2026_02_01 + 100)%Z, 0.1);
                           ((CLOCK_2026_02_01 + 100)%Z, 0.9)] this
     | None => None
     end)
  = Some (4831073%Z, 643 # 129600).
Proof. reflexivity. Qed.

(** C9, as stated, fails: a tick with no time elapsed on a counter that has
    not been seeded, once a historical total is available, moves the value
    from 0 to that total. *)
Lemma tick_zero_elapsed_seeds_counter :
  this_value unseeded = 0%Z /\
  this_lastTick unseeded = CLOCK_2026_02_01 /\
  historicalMid (calculated afterAllUp) = Some 4831073%Z /\
  option_map this_value (tick afterAllUp CLOCK_2026_02_01 0.5 unseeded)
    = Some 4831073%Z.
Proof. repeat split. Qed.

End CounterProps.

(* ------------------------------------------------------------------------- *)
(** ** Further properties of the attribution *)
(* ------------------------------------------------------------------------- *)

Module ScoreExtras.
Import JS Attribution Samples MoreSamples ArrayProps MaturityProps ScoreProps.


Lemma Math_round_monotone (x y : Q) : x <= y -> (Math_round x <= Math_round y)%Z.
Proof. intros H. unfold Math_round. apply Qfloor_resp_le. lra. Qed.

Lemma effectiveMonths_nonneg (launch : Z) :
  (launch <= CURRENT_DATE)%Z -> (0 <= effectiveMonths launch)%Z.
Proof.
  intros H. rewrite effectiveMonths_unfold.
  assert (Hm : (0 <= (CURRENT_DATE - launch) / MS_PER_MONTH)%Z)
    by (apply Z.div_pos; [lia | reflexivity]).
  destruct (launch <? AI_ERA_START)%Z; lia.
Qed.

Lemma adoptionCurve_range (m : Z) :
  (0 <= m)%Z -> 0.2 <= adoptionCurve m /\ adoptionCurve m <= 1.
Proof.
  intros Hm. split.
  - setoid_replace 0.2 with (adoptionCurve 0) by reflexivity.
    now apply adoptionCurve_monotone.
  - setoid_replace 1 with (adoptionCurve 25) by reflexivity.
    destruct (Z.le_ge_cases m 25) as [H | H].
    + now apply adoptionCurve_monotone.
    + unfold adoptionCurve.
      destruct (Z.leb_spec m 6); [lia |].
      destruct (Z.leb_spec m 12); [lia |].
      destruct (Z.leb_spec m 24); [lia |]. apply Qle_refl.
Qed.

Lemma adoptionCurve_full (m : Z) : (24 <= m)%Z -> adoptionCurve m == 1.
Proof.
  intros Hm. apply Qle_antisym.
  - apply adoptionCurve_range. lia.
  - setoid_replace 1 with (adoptionCurve 24) by reflexivity.
    now apply adoptionCurve_monotone.
Qed.

(** The maturity is 0 without a launch date or with one in the future, and
    between 0.2 and 1 for every product launched by [CURRENT_DATE]. *)
Theorem deploymentMaturity_range (c : Company) :
  match productLaunch c with
  | None => calculateDeploymentMaturity c = 0
  | Some launch =>
      if (launch <=? CURRENT_DATE)%Z
      then 0.2 <= calculateDeploymentMaturity c /\ calculateDeploymentMaturity c <= 1
      else calculateDeploymentMaturity c = 0
  end.
Proof.
  unfold calculateDeploymentMaturity.
  destruct (productLaunch c) as [launch |]; [| reflexivity].
  destruct (Z.leb_spec launch CURRENT_DATE) as [H | H].
  - destruct (Z.ltb_spec CURRENT_DATE launch); [lia |].
    apply adoptionCurve_range. now apply effectiveMonths_nonneg.
  - destruct (Z.ltb_spec CURRENT_DATE launch); [reflexivity | lia].
Qed.

(** A product launched before the AI era, or at least 24 periods of 30
    days before [CURRENT_DATE], has maturity 1: with these dates the cap at
    the months since the AI era never lowers a maturity. *)
Theorem deploymentMaturity_full (c : Company) (launch : Z) :
  productLaunch c = Some launch ->
  (launch < AI_ERA_START \/ launch <= CURRENT_DATE - 24 * MS_PER_MONTH)%Z ->
  calculateDeploymentMaturity c == 1.
Proof.
  intros Hl Hold.
  assert (Hera : (AI_ERA_START <= CURRENT_DATE - 24 * MS_PER_MONTH)%Z)
    by (vm_compute; discriminate).
  assert (Hcur : (CURRENT_DATE - 24 * MS_PER_MONTH <= CURRENT_DATE)%Z)
    by (vm_compute; discriminate).
  assert (H24 : (launch <= CURRENT_DATE - 24 * MS_PER_MONTH)%Z) by lia.
  rewrite (maturity_of_launch c launch Hl) by lia.
  apply adoptionCurve_full. rewrite effectiveMonths_unfold.
  assert (Hm : (24 <= (CURRENT_DATE - launch) / MS_PER_MONTH)%Z).
  { apply Z.div_le_lower_bound; [reflexivity | lia]. }
  destruct (launch <? AI_ERA_START)%Z; lia.
Qed.

Lemma deploymentMaturity_full_witness :
  productLaunch veteran = Some DATE_2020_01_01 /\
  (DATE_2020_01_01 < AI_ERA_START)%Z /\
  calculateDeploymentMaturity veteran == 1.
Proof.
  split; [reflexivity | split; [reflexivity |]].
  apply (deploymentMaturity_full veteran DATE_2020_01_01 eq_refl).
  left. reflexivity.
Defined.








Lemma lookup_keys {A : Type} (key : string) (table : list (string * A)) (v : A) :
  lookup key table = Some v -> In key (keys table).
Proof.
  induction table as [| [k w] rest IH]; [discriminate |].
  simpl. destruct (String.eqb_spec key k) as [-> | _]; [now left |].
  intros H. right. now apply IH.
Qed.

Lemma lookup_computed {A : Type} (f : string -> A) (key : string) (ks : list string) :
  In key ks -> lookup key (map (fun k => (k, f k)) ks) = Some (f key).
Proof.
  induction ks as [| k rest IH]; intros Hin; [destruct Hin |].
  simpl. destruct (String.eqb_spec key k) as [-> | Hne]; [reflexivity |].
  destruct Hin as [-> | Hin]; [congruence | now apply IH].
Qed.

(** [byCategory[cat]] for a key of the category table. *)
Lemma groupByCategory_lookup (companies : list Company) (cat : string) :
  In cat (keys DISPLACEMENT_CATEGORIES) ->
  lookup cat (groupByCategory companies)
  = Some (filter (fun c => String.eqb (category c) cat) companies).
Proof.
  intros Hin. unfold groupByCategory.
  apply (lookup_computed
           (fun k => filter (fun c => String.eqb (category c) k) companies)).
  exact Hin.
Qed.


Section AnyLog.
Variable log10 : Q -> Q.

Lemma warned_unknown (G : list (string * list Company)) (companies : list Company) :
  warned (map (scoreCompany log10 G) companies)
  = map (fun c => ("Unknown category: " ++ category c ++ " for " ++ name c)%string)
        (filter (fun c => negb (hasCategory c)) companies).
Proof.
  induction companies as [| c rest IH]; [reflexivity |].
  simpl. unfold hasCategory at 1. unfold scoreCompany at 1.
  destruct (lookup (category c) DISPLACEMENT_CATEGORIES); simpl; now rewrite IH.
Qed.

Lemma filter_partition_length {A : Type} (f : A -> bool) (l : list A) :
  (List.length (filter f l) + List.length (filter (fun x => negb (f x)) l)
   = List.length l)%nat.
Proof.
  induction l as [| x rest IH]; [reflexivity |].
  simpl. destruct (f x); simpl; lia.
Qed.




(** For a non-negative target and a positive total raw score, an entity
    with the larger raw score is attributed at least as much. *)
Theorem attributed_monotone_in_rawScore (totalRaw T : Q) (s1 s2 : Scored) :
  0 < totalRaw -> 0 <= T -> rawScore s1 <= rawScore s2 ->
  (displacement (normalizeScored totalRaw T s1)
   <= displacement (normalizeScored totalRaw T s2))%Z.
Proof.
  intros Hpos HT Hle. unfold normalizeScored. simpl.
  rewrite (ltb_true _ _ Hpos). apply Math_round_monotone.
  assert (Hinv : 0 < / totalRaw) by now apply Qinv_lt_0_compat.
  unfold Qdiv.
  assert (H1 : rawScore s1 * / totalRaw <= rawScore s2 * / totalRaw).
  { apply Qmult_le_compat_r; [exact Hle | now apply Qlt_le_weak]. }
  setoid_replace (T * (rawScore s1 * / totalRaw))
    with ((rawScore s1 * / totalRaw) * T) by ring.
  setoid_replace (T * (rawScore s2 * / totalRaw))
    with ((rawScore s2 * / totalRaw) * T) by ring.
  now apply Qmult_le_compat_r.
Qed.





End AnyLog.




Lemma attributed_monotone_in_rawScore_witness :
  match scoreCompanies log10_decades [unlisted; active] with
  | [s1; s2] =>
      0 < sumQ rawScore [s1; s2] /\ 0 <= 1000 /\ rawScore s1 <= rawScore s2 /\
      (displacement (normalizeScored (sumQ rawScore [s1; s2]) 1000 s1)
       <= displacement (normalizeScored (sumQ rawScore [s1; s2]) 1000 s2))%Z
  | _ => False
  end.
Proof.
  destruct (scoreCompanies log10_decades [unlisted; active])
    as [| s1 [| s2 [| s3 rest]]] eqn:E; try discriminate E.
  injection E as <- <-.
  assert (Hpos : 0 < sumQ rawScore
                       (scoreCompanies log10_decades [unlisted; active]))
    by reflexivity.
  assert (HT : 0 <= 1000) by discriminate.
  match goal with
  | |- 0 < sumQ rawScore [?a; ?b] /\ _ =>
      assert (Hle : rawScore a <= rawScore b) by (vm_compute; discriminate);
      pose proof (attributed_monotone_in_rawScore
                    (sumQ rawScore [a; b]) 1000 a b Hpos HT Hle) as Hres
  end.
  split; [exact Hpos | split; [exact HT | split; [| exact Hres]]].
  vm_compute. discriminate.
Defined.



End ScoreExtras.

(* ------------------------------------------------------------------------- *)
(** ** Properties of the scoring with inherited properties *)
(* ------------------------------------------------------------------------- *)

Module PrototypeProps.
Import JS Attribution Samples MoreSamples PrototypeSamples.
Import ArrayProps ScoreProps ScoreExtras.

(** The sort returns a rearrangement of its argument, whatever the
    comparator. *)
Lemma insert_rearranges {A : Type} (cmp : A -> A -> Z) (x : A) (l : list A) :
  Permutation (insert cmp x l) (x :: l).
Proof.
  induction l as [| y rest IH]; simpl.
  - apply Permutation_refl.
  - destruct (0 <? cmp x y)%Z.
    + transitivity (y :: x :: rest); [now apply perm_skip | apply perm_swap].
    + apply Permutation_refl.
Qed.

Lemma sort_rearranges {A : Type} (cmp : A -> A -> Z) (l : list A) :
  Permutation (sort cmp l) l.
Proof.
  induction l as [| x rest IH]; simpl.
  - apply perm_nil.
  - transitivity (x :: sort cmp rest);
      [apply insert_rearranges | now apply perm_skip].
Qed.

(** Sorting commutes with a map that respects the comparators. *)
Lemma insert_map {A B : Type} (cmp : A -> A -> Z) (cmp' : B -> B -> Z)
    (g : A -> B) (x : A) (l : list A) :
  (forall a b, cmp' (g a) (g b) = cmp a b) ->
  insert cmp' (g x) (map g l) = map g (insert cmp x l).
Proof.
  intros Hg. induction l as [| y rest IH]; [reflexivity |].
  simpl. rewrite Hg. destruct (0 <? cmp x y)%Z; simpl; [now rewrite IH | reflexivity].
Qed.

Lemma sort_map {A B : Type} (cmp : A -> A -> Z) (cmp' : B -> B -> Z)
    (g : A -> B) (l : list A) :
  (forall a b, cmp' (g a) (g b) = cmp a b) ->
  sort cmp' (map g l) = map g (sort cmp l).
Proof.
  intros Hg. induction l as [| x rest IH]; [reflexivity |].
  simpl. now rewrite IH, (insert_map cmp cmp' g _ _ Hg).
Qed.

Lemma mapi_from_ofRanked (i : Z) (l : list Row) :
  mapi_from (fun index company =>
               {| WithPrototype.rank := index + 1; WithPrototype.row := company |})
            i (map WithPrototype.ofRow l)
  = map WithPrototype.ofRanked
        (mapi_from (fun index company => {| rank := index + 1; row := company |}) i l).
Proof.
  revert i. induction l as [| r rest IH]; intros i; [reflexivity |].
  simpl. now rewrite IH.
Qed.

(** None of the inherited names is a key of the three tables. *)
Lemma inherited_not_listed {A : Type} (key : string) (table : list (string * A)) :
  forallb (fun k => negb (WithPrototype.inherited k)) (keys table) = true ->
  WithPrototype.inherited key = true -> lookup key table = None.
Proof.
  intros Hall Hkey. destruct (lookup key table) as [v |] eqn:E; [| reflexivity].
  apply lookup_keys in E. rewrite forallb_forall in Hall.
  specialize (Hall key E). rewrite Hkey in Hall. discriminate.
Qed.

Lemma inherited_category (c : Company) :
  WithPrototype.inherited (category c) = true -> hasCategory c = false.
Proof.
  intros H. unfold hasCategory.
  now rewrite (inherited_not_listed _ DISPLACEMENT_CATEGORIES eq_refl H).
Qed.

Lemma property_plain {A : Type} (key : string) (table : list (string * A)) :
  WithPrototype.inherited key = false ->
  WithPrototype.property key table
  = match lookup key table with
    | Some v => WithPrototype.Own v
    | None => WithPrototype.Undefined
    end.
Proof. intros H. unfold WithPrototype.property. now rewrite H. Qed.

Lemma or_default_plain (key : string) (table : list (string * Q)) (d : Q) :
  WithPrototype.inherited key = false ->
  WithPrototype.or_default (WithPrototype.property key table) d
  = WithPrototype.Num (or_else (lookup key table) d).
Proof.
  intros H. rewrite (property_plain _ _ H).
  destruct (lookup key table) as [v |]; simpl; [| reflexivity].
  now destruct (truthy v).
Qed.

Section AnyLog.
Variable log10 : Q -> Q.

(** What the callback does with an entity, by the kind of its category. *)
Lemma scoreCompany_cases (companies : list Company) (c : Company) :
  (hasCategory c = true /\
   exists s, WithPrototype.scoreCompany log10 (groupByCategory companies) c
             = WithPrototype.Returned s /\
             WithPrototype.company s = c)
  \/
  (hasCategory c = false /\ WithPrototype.inherited (category c) = true /\
   WithPrototype.scoreCompany log10 (groupByCategory companies) c
   = WithPrototype.Thrown)
  \/
  (hasCategory c = false /\ WithPrototype.inherited (category c) = false /\
   WithPrototype.scoreCompany log10 (groupByCategory companies) c
   = WithPrototype.Warned
       ("Unknown category: " ++ category c ++ " for " ++ name c)%string).
Proof.
  unfold hasCategory, WithPrototype.scoreCompany, WithPrototype.property.
  destruct (lookup (category c) DISPLACEMENT_CATEGORIES) as [cat |] eqn:Hcat.
  - left. split; [reflexivity |].
    rewrite (groupByCategory_lookup companies (category c) (lookup_keys _ _ _ Hcat)).
    eexists. split; reflexivity.
  - right. destruct (WithPrototype.inherited (category c)); [left | right]; auto.
Qed.

(** On an entity whose three keys are plain the callback does what the
    callback of [Attribution] does. *)
Lemma scoreCompany_plain (companies : list Company) (c : Company) :
  WithPrototype.inherited (category c) = false ->
  WithPrototype.inherited (displacementType c) = false ->
  WithPrototype.inherited (enterpriseLevel c) = false ->
  WithPrototype.scoreCompany log10 (groupByCategory companies) c
  = WithPrototype.ofOutcome (scoreCompany log10 (groupByCategory companies) c).
Proof.
  intros Hc Ht He. unfold WithPrototype.scoreCompany, scoreCompany.
  rewrite (property_plain _ DISPLACEMENT_CATEGORIES Hc).
  destruct (lookup (category c) DISPLACEMENT_CATEGORIES) as [cat |] eqn:Hcat;
    [| reflexivity].
  unfold WithPrototype.property at 1.
  rewrite (groupByCategory_lookup companies (category c) (lookup_keys _ _ _ Hcat)).
  rewrite (or_default_plain _ DISPLACEMENT_TYPE_MULT _ Ht).
  rewrite (or_default_plain _ ENTERPRISE_MULT _ He).
  reflexivity.
Qed.

Lemma plainKeys_In (companies : list Company) (c : Company) :
  WithPrototype.plainKeys companies = true -> In c companies ->
  WithPrototype.inherited (category c) = false /\
  WithPrototype.inherited (displacementType c) = false /\
  WithPrototype.inherited (enterpriseLevel c) = false.
Proof.
  unfold WithPrototype.plainKeys. rewrite forallb_forall. intros H Hin.
  specialize (H c Hin). apply andb_true_iff in H. destruct H as [H He].
  apply andb_true_iff in H. destruct H as [Hc Ht].
  now rewrite negb_true_iff in Hc, Ht, He.
Qed.

Lemma outcomes_plain (companies : list Company) :
  WithPrototype.plainKeys companies = true ->
  WithPrototype.outcomes log10 companies
  = map WithPrototype.ofOutcome
        (map (scoreCompany log10 (groupByCategory companies)) companies).
Proof.
  intros H. unfold WithPrototype.outcomes. rewrite map_map.
  apply map_ext_in. intros c Hin.
  destruct (plainKeys_In companies c H Hin) as (Hc & Ht & He).
  now apply scoreCompany_plain.
Qed.

Lemma ofOutcome_throws (l : list (string + Scored)) :
  WithPrototype.throws (map WithPrototype.ofOutcome l) = false.
Proof. induction l as [| [w | s] rest IH]; simpl; auto. Qed.

Lemma ofOutcome_warned (l : list (string + Scored)) :
  WithPrototype.warned (map WithPrototype.ofOutcome l) = warned l.
Proof. induction l as [| [w | s] rest IH]; simpl; now rewrite ?IH. Qed.

Lemma ofOutcome_filterBoolean (l : list (string + Scored)) :
  WithPrototype.filterBoolean (map WithPrototype.ofOutcome l)
  = map WithPrototype.ofScored (filterBoolean l).
Proof. induction l as [| [w | s] rest IH]; simpl; now rewrite ?IH. Qed.

Lemma ofScored_totalRaw (l : list Scored) :
  WithPrototype.totalRaw (map WithPrototype.ofScored l) = Some (sumQ rawScore l).
Proof.
  unfold WithPrototype.totalRaw, sumQ. generalize 0 as a.
  induction l as [| s rest IH]; intros a; [reflexivity |].
  simpl. apply IH.
Qed.

Lemma ofScored_normalizeScored (t T : Q) (s : Scored) :
  WithPrototype.normalizeScored (Some t) T (WithPrototype.ofScored s)
  = WithPrototype.ofRow (normalizeScored t T s).
Proof.
  unfold WithPrototype.normalizeScored, normalizeScored. simpl.
  destruct (ltb 0 t); reflexivity.
Qed.

(** On a roster that uses none of the inherited names as a category, type
    or tier, the scoring returns, and it returns the scored entities, the
    warnings and the rows of [Attribution]. *)
Lemma plain_roster_scores (companies : list Company) (T : Q) :
  WithPrototype.plainKeys companies = true ->
  WithPrototype.scoreCompanies log10 companies
    = map WithPrototype.ofScored (scoreCompanies log10 companies) /\
  WithPrototype.warnings log10 companies = warnings log10 companies /\
  WithPrototype.calculateDisplacementScores log10 companies T
    = Some (map WithPrototype.ofRanked (calculateDisplacementScores log10 companies T)).
Proof.
  intros H.
  assert (Hs : WithPrototype.scoreCompanies log10 companies
               = map WithPrototype.ofScored (scoreCompanies log10 companies)).
  { unfold WithPrototype.scoreCompanies, scoreCompanies.
    now rewrite (outcomes_plain _ H), ofOutcome_filterBoolean. }
  split; [exact Hs | split].
  - unfold WithPrototype.warnings, warnings.
    now rewrite (outcomes_plain _ H), ofOutcome_warned.
  - unfold WithPrototype.calculateDisplacementScores.
    rewrite (outcomes_plain _ H) at 1. rewrite ofOutcome_throws.
    rewrite Hs. unfold WithPrototype.normalize. rewrite ofScored_totalRaw.
    rewrite map_map.
    rewrite (map_ext _ (fun s => WithPrototype.ofRow
                                   (normalizeScored
                                      (sumQ rawScore (scoreCompanies log10 companies))
                                      T s)))
      by (intros s; apply ofScored_normalizeScored).
    rewrite <- (map_map _ WithPrototype.ofRow).
    rewrite (sort_map byDisplacement WithPrototype.byDisplacement WithPrototype.ofRow)
      by reflexivity.
    unfold mapi. rewrite mapi_from_ofRanked. reflexivity.
Qed.

(** The outcomes of a stretch of the roster: it throws exactly when one of
    its categories is an inherited name; if not, the entities of a known
    category are returned and the others warned of, in order. *)
Lemma outcomes_throw (companies l : list Company) :
  WithPrototype.throws (map (WithPrototype.scoreCompany log10 (groupByCategory companies)) l)
  = existsb (fun c => WithPrototype.inherited (category c)) l.
Proof.
  induction l as [| c rest IH]; [reflexivity |].
  simpl.
  destruct (scoreCompany_cases companies c)
    as [(Hc & s & -> & _) | [(Hc & Hi & ->) | (Hc & Hi & ->)]]; simpl.
  - rewrite IH. destruct (WithPrototype.inherited (category c)) eqn:Hi; [| reflexivity].
    rewrite (inherited_category _ Hi) in Hc. discriminate.
  - now rewrite Hi.
  - now rewrite Hi, IH.
Qed.

Lemma outcomes_returned (companies l : list Company) :
  existsb (fun c => WithPrototype.inherited (category c)) l = false ->
  map WithPrototype.company
      (WithPrototype.filterBoolean
         (map (WithPrototype.scoreCompany log10 (groupByCategory companies)) l))
    = filter hasCategory l /\
  WithPrototype.warned
    (map (WithPrototype.scoreCompany log10 (groupByCategory companies)) l)
    = map (fun c => ("Unknown category: " ++ category c ++ " for " ++ name c)%string)
          (filter (fun c => negb (hasCategory c)) l).
Proof.
  induction l as [| c rest IH]; intros H; [split; reflexivity |].
  simpl in H. apply orb_false_iff in H. destruct H as [Hi Hrest].
  destruct (IH Hrest) as [IH1 IH2]. simpl.
  destruct (scoreCompany_cases companies c)
    as [(Hc & s & -> & Hs) | [(Hc & Hi' & _) | (Hc & _ & ->)]].
  - rewrite Hc. simpl. now rewrite Hs, IH1, IH2.
  - rewrite Hi in Hi'. discriminate.
  - rewrite Hc. simpl. now rewrite IH1, IH2.
Qed.

(** An entity whose category is neither a key of [DISPLACEMENT_CATEGORIES]
    nor an inherited name is left out of the result and reported by one
    warning that names it; the scoring throws exactly when the category of
    some entity is an inherited name, and otherwise rows and warnings
    together are as many as the roster, and the names in the result are the
    names of the entities of a known category. *)
Theorem unknown_category_warned_and_excluded (companies : list Company) (T : Q) :
  (WithPrototype.calculateDisplacementScores log10 companies T = None <->
   exists c, In c companies /\ WithPrototype.inherited (category c) = true) /\
  (forall result,
     WithPrototype.calculateDisplacementScores log10 companies T = Some result ->
     WithPrototype.warnings log10 companies
     = map (fun c => ("Unknown category: " ++ category c ++ " for " ++ name c)%string)
           (filter (fun c => negb (hasCategory c)) companies) /\
     (List.length result + List.length (WithPrototype.warnings log10 companies)
      = List.length companies)%nat /\
     Permutation (map (fun r => WithPrototype.row_name (WithPrototype.row r)) result)
                 (map name (filter hasCategory companies))).
Proof.
  unfold WithPrototype.calculateDisplacementScores, WithPrototype.outcomes.
  rewrite outcomes_throw.
  destruct (existsb (fun c => WithPrototype.inherited (category c)) companies) eqn:E.
  - split.
    + split; [intros _ | reflexivity].
      apply existsb_exists in E. exact E.
    + intros result H. discriminate.
  - split.
    + split; [discriminate |].
      intros H. apply existsb_exists in H. rewrite E in H. discriminate.
    + intros result H. injection H as <-.
      destruct (outcomes_returned companies companies E) as [Hco Hw].
      fold (WithPrototype.outcomes log10 companies) in Hco, Hw.
      fold (WithPrototype.scoreCompanies log10 companies) in Hco.
      fold (WithPrototype.warnings log10 companies) in Hw.
      assert (Hrows : Permutation
                        (map WithPrototype.row
                             (mapi (fun index company =>
                                      {| WithPrototype.rank := index + 1;
                                         WithPrototype.row := company |})
                                   (sort WithPrototype.byDisplacement
                                      (WithPrototype.normalize T
                                         (WithPrototype.scoreCompanies log10 companies)))))
                        (WithPrototype.normalize T
                           (WithPrototype.scoreCompanies log10 companies))).
      { unfold mapi. rewrite mapi_from_project by reflexivity.
        apply sort_rearranges. }
      split; [exact Hw | split].
      * rewrite Hw, length_map.
        rewrite <- (length_map WithPrototype.row), (Permutation_length Hrows).
        unfold WithPrototype.normalize. rewrite length_map.
        rewrite <- (length_map WithPrototype.company), Hco.
        apply filter_partition_length.
      * rewrite <- (map_map WithPrototype.row WithPrototype.row_name).
        rewrite (Permutation_map WithPrototype.row_name Hrows).
        unfold WithPrototype.normalize. rewrite map_map. simpl.
        rewrite <- Hco, map_map. apply Permutation_refl.
Qed.

(** C10, amended.  In a roster that uses none of the names inherited from
    [Object.prototype] as a category, type or tier, an entity of a known
    category is scored, and the only warnings are those for the entities of
    an unknown category.  Its two multipliers are numbers, 0.5 when the type
    is not a key of its table and 0.6 when the tier is not a key of its
    table; its raw score is the product of the six factors with these
    multipliers, and its row in the result carries that score's rounded part
    of the target when the total raw score is positive: an amount of at least
    1 when that part is at least one half. *)
Theorem unlisted_type_or_tier_scored_with_defaults
    (companies : list Company) (T : Q) (c : Company) :
  WithPrototype.plainKeys companies = true ->
  In c companies ->
  hasCategory c = true ->
  exists (s : WithPrototype.Scored) (tm em raw total : Q)
         (result : list WithPrototype.Ranked),
    WithPrototype.scoreCompany log10 (groupByCategory companies) c
      = WithPrototype.Returned s /\
    In s (WithPrototype.scoreCompanies log10 companies) /\
    WithPrototype.company s = c /\
    WithPrototype.warnings log10 companies
      = map (fun c' => ("Unknown category: " ++ category c' ++ " for "
                        ++ name c')%string)
            (filter (fun c' => negb (hasCategory c')) companies) /\
    WithPrototype.displacementTypeMult (WithPrototype.factors s)
      = WithPrototype.Num tm /\
    WithPrototype.enterpriseFactor (WithPrototype.factors s)
      = WithPrototype.Num em /\
    (~ In (displacementType c) ["direct"; "augmentation"; "infrastructure"]%string ->
     tm = 0.5) /\
    (~ In (enterpriseLevel c) ["enterprise"; "prosumer"; "consumer"]%string ->
     em = 0.6) /\
    raw = WithPrototype.categoryAllocation (WithPrototype.factors s)
          * WithPrototype.marketShare (WithPrototype.factors s)
          * calculateDeploymentMaturity c
          * tm
          * or_else (operationalStatus c) 1.0
          * em /\
    WithPrototype.rawScore s = Some raw /\
    WithPrototype.totalRaw (WithPrototype.scoreCompanies log10 companies)
      = Some total /\
    WithPrototype.calculateDisplacementScores log10 companies T = Some result /\
    In (WithPrototype.normalizeScored (Some total) T s)
       (map WithPrototype.row result) /\
    WithPrototype.row_name (WithPrototype.normalizeScored (Some total) T s)
      = name c /\
    (0 < total ->
     WithPrototype.displacement (WithPrototype.normalizeScored (Some total) T s)
       = Some (Math_round (T * (raw / total))) /\
     (1 # 2 <= T * (raw / total) -> (1 <= Math_round (T * (raw / total)))%Z)).
Proof.
  intros Hplain Hin Hcat.
  destruct (plain_roster_scores companies T Hplain) as (Hscored & Hwarn & Hres).
  destruct (plainKeys_In companies c Hplain Hin) as (Hic & Hit & Hie).
  destruct (scoreCompany_known log10 (groupByCategory companies) c Hcat) as [s0 Hs0].
  destruct (scoreCompany_rawScore log10 _ _ _ Hs0) as (Hraw & Hmat & Hty & Hop & Htier).
  pose proof (scoreCompany_company log10 _ _ _ Hs0) as Hco.
  assert (Hin0 : In s0 (scoreCompanies log10 companies))
    by (apply scoreCompanies_In; now exists c).
  exists (WithPrototype.ofScored s0),
         (displacementTypeMult (factors s0)), (enterpriseFactor (factors s0)),
         (rawScore s0), (sumQ rawScore (scoreCompanies log10 companies)),
         (map WithPrototype.ofRanked (calculateDisplacementScores log10 companies T)).
  split; [now rewrite (scoreCompany_plain companies c Hic Hit Hie), Hs0 |].
  split; [rewrite Hscored; now apply in_map |].
  split; [exact Hco |].
  split; [rewrite Hwarn; apply warned_unknown |].
  split; [reflexivity | split; [reflexivity |]].
  split; [intros Hn; rewrite Hty, (lookup_None _ DISPLACEMENT_TYPE_MULT Hn);
          reflexivity |].
  split; [intros Hn; rewrite Htier, (lookup_None _ ENTERPRISE_MULT Hn);
          reflexivity |].
  split; [simpl; rewrite Hraw, Hmat, Hop; reflexivity |].
  split; [reflexivity |].
  split; [rewrite Hscored; apply ofScored_totalRaw |].
  split; [exact Hres |].
  split.
  { rewrite ofScored_normalizeScored, map_map.
    rewrite <- (map_map row WithPrototype.ofRow). apply in_map.
    apply (Permutation_in _ (Permutation_sym (result_permutation log10 companies T))).
    unfold normalize. now apply in_map. }
  split; [simpl; now rewrite Hco |].
  intros Hpos. split.
  - rewrite ofScored_normalizeScored. simpl. now rewrite (ltb_true _ _ Hpos).
  - intros Hhalf. unfold Math_round.
    set (part := T * (rawScore s0 / sumQ rawScore (scoreCompanies log10 companies)))
      in *.
    assert (H1 : (Qfloor 1 <= Qfloor (part + (1 # 2)))%Z)
      by (apply Qfloor_resp_le; lra).
    exact H1.
Qed.

End AnyLog.

(** C10, as stated, fails.  The type 'constructor' is not a key of the
    table of type multipliers, and the entity is of a known category; its
    multiplier is not 0.5 but the inherited member of that name, its raw
    score is NaN, and with it the total: every amount of the roster is 0.
    And an entity with an unlisted type and tier whose category is not
    listed either is excluded, with a warning. *)
Lemma inherited_type_is_not_defaulted :
  (~ In (displacementType builder) ["direct"; "augmentation"; "infrastructure"]%string /\
   hasCategory builder = true /\
   map (fun s => (name (WithPrototype.company s),
                  WithPrototype.displacementTypeMult (WithPrototype.factors s),
                  option_map Qred (WithPrototype.rawScore s)))
       (WithPrototype.scoreCompanies log10_decades [active; builder])
   = [("Active"%string, WithPrototype.Num 1.0, Some (1 # 5));
      ("Builder"%string, WithPrototype.Inherited, None)] /\
   option_map
     (map (fun r => (WithPrototype.row_name (WithPrototype.row r),
                     WithPrototype.displacement (WithPrototype.row r))))
     (WithPrototype.calculateDisplacementScores log10_decades [active; builder] 1000)
   = Some [("Active"%string, Some 0%Z); ("Builder"%string, Some 0%Z)]) /\
  (~ In (displacementType outsider) ["direct"; "augmentation"; "infrastructure"]%string /\
   WithPrototype.warnings log10_decades [active; outsider]
   = ["Unknown category: robotics for Outsider"%string] /\
   option_map
     (map (fun r => WithPrototype.row_name (WithPrototype.row r)))
     (WithPrototype.calculateDisplacementScores log10_decades [active; outsider] 1000)
   = Some ["Active"%string]).
Proof.
  split; [split; [| split; [| split]] | split; [| split]];
    try reflexivity;
    simpl; intros [H | [H | [H | []]]]; discriminate.
Qed.

(** A sum that has become NaN stays NaN. *)
Lemma totalRaw_NaN (l : list WithPrototype.Scored) :
  fold_left (fun sum c => WithPrototype.plus sum (WithPrototype.rawScore c)) l None
  = None.
Proof. induction l as [| s rest IH]; [reflexivity | exact IH]. Qed.

(** A total that is a number is a sum of numbers. *)
Lemma totalRaw_number (l : list WithPrototype.Scored) (a : WithPrototype.Number) (t : Q) :
  fold_left (fun sum c => WithPrototype.plus sum (WithPrototype.rawScore c)) l a
  = Some t ->
  forall s, In s l -> exists r, WithPrototype.rawScore s = Some r.
Proof.
  revert a. induction l as [| s0 rest IH]; intros a H s Hin; [destruct Hin |].
  simpl in H. destruct (WithPrototype.rawScore s0) as [r0 |] eqn:E0.
  - destruct Hin as [<- | Hin]; [now exists r0 | now apply (IH _ H)].
  - destruct a; simpl in H; rewrite totalRaw_NaN in H; discriminate.
Qed.

(** When the scoring returns, every attributed amount and every percentage
    of the result is a number: a NaN among the raw scores makes the total
    NaN, the test [totalRaw > 0] fails, and every amount is 0. *)
Theorem attributed_amounts_are_numbers
    (log10 : Q -> Q) (companies : list Company) (T : Q)
    (result : list WithPrototype.Ranked) :
  WithPrototype.calculateDisplacementScores log10 companies T = Some result ->
  (forall r, In r result ->
     exists d p, WithPrototype.displacement (WithPrototype.row r) = Some d /\
                 WithPrototype.percentage (WithPrototype.row r) = Some p) /\
  (WithPrototype.totalRaw (WithPrototype.scoreCompanies log10 companies) = None ->
   forall r, In r result ->
     WithPrototype.displacement (WithPrototype.row r) = Some 0%Z).
Proof.
  unfold WithPrototype.calculateDisplacementScores.
  destruct (WithPrototype.throws _); [discriminate |].
  intros H. injection H as <-.
  set (scored := WithPrototype.scoreCompanies log10 companies).
  assert (Hrow : forall r,
             In r (mapi (fun index company =>
                           {| WithPrototype.rank := index + 1;
                              WithPrototype.row := company |})
                        (sort WithPrototype.byDisplacement
                              (WithPrototype.normalize T scored))) ->
             exists s, In s scored /\
                       WithPrototype.row r
                       = WithPrototype.normalizeScored
                           (WithPrototype.totalRaw scored) T s).
  { intros r Hin. apply (in_map WithPrototype.row) in Hin.
    unfold mapi in Hin. rewrite mapi_from_project in Hin by reflexivity.
    apply (Permutation_in _ (sort_rearranges _ _)) in Hin.
    unfold WithPrototype.normalize in Hin. apply in_map_iff in Hin.
    destruct Hin as (s & Hs & Hin). now exists s. }
  split.
  - intros r Hin. destruct (Hrow r Hin) as (s & Hs & ->).
    unfold WithPrototype.normalizeScored. cbn [WithPrototype.displacement
                                              WithPrototype.percentage].
    destruct (WithPrototype.totalRaw scored) as [t |] eqn:Et.
    + destruct (totalRaw_number scored (Some 0) t Et s Hs) as [raw ->].
      simpl. destruct (ltb 0 t); simpl; eauto.
    + simpl. eauto.
  - intros Hnan r Hin. destruct (Hrow r Hin) as (s & Hs & ->).
    unfold WithPrototype.normalizeScored. rewrite Hnan. simpl. f_equal.
    transitivity (Math_round 0); [apply Math_round_comp; ring | reflexivity].
Qed.

Lemma attributed_amounts_are_numbers_witness :
  option_map (map (fun s => option_map Qred (WithPrototype.rawScore s)))
    (Some (WithPrototype.scoreCompanies log10_decades [active; builder]))
  = Some [Some (1 # 5); None] /\
  exists result,
    WithPrototype.calculateDisplacementScores log10_decades [active; builder] 1000
    = Some result /\
    forall r, In r result ->
      WithPrototype.displacement (WithPrototype.row r) = Some 0%Z.
Proof.
  split; [reflexivity |].
  destruct (WithPrototype.calculateDisplacementScores log10_decades
              [active; builder] 1000) as [result |] eqn:E; [| discriminate E].
  exists result. split; [reflexivity |].
  destruct (attributed_amounts_are_numbers log10_decades [active; builder] 1000
              result E) as [_ Hzero].
  apply Hzero. reflexivity.
Defined.

Lemma unlisted_type_or_tier_scored_with_defaults_witness :
  WithPrototype.plainKeys [active; outsider; unlisted; veteran] = true /\
  In unlisted [active; outsider; unlisted; veteran] /\
  hasCategory unlisted = true /\
  exists s,
    In s (WithPrototype.scoreCompanies log10_decades
            [active; outsider; unlisted; veteran]) /\
    WithPrototype.company s = unlisted /\
    WithPrototype.displacementTypeMult (WithPrototype.factors s)
      = WithPrototype.Num 0.5 /\
    WithPrototype.enterpriseFactor (WithPrototype.factors s)
      = WithPrototype.Num 0.6 /\
    option_map Qred (WithPrototype.rawScore s) = Some (3 # 125) /\
    option_map
      (map (fun r => (WithPrototype.row_name (WithPrototype.row r),
                      WithPrototype.displacement (WithPrototype.row r))))
      (WithPrototype.calculateDisplacementScores log10_decades
         [active; outsider; unlisted; veteran] 1000)
    = Some [("Active"%string, Some 625%Z); ("Unlisted"%string, Some 225%Z);
            ("Veteran"%string, Some 150%Z)].
Proof.
  assert (Hin : In unlisted [active; outsider; unlisted; veteran])
    by (right; right; left; reflexivity).
  destruct (unlisted_type_or_tier_scored_with_defaults
              log10_decades [active; outsider; unlisted; veteran] 1000 unlisted
              eq_refl Hin eq_refl)
    as (s & tm & em & raw & total & result
        & _ & Hs & Hc & _ & Htm & Hem & Hty & Htier & Hraw & Hscore & _).
  split; [reflexivity | split; [exact Hin | split; [reflexivity |]]].
  exists s.
  assert (Etm : tm = 0.5)
    by (apply Hty; simpl; intros [H | [H | [H | []]]]; discriminate).
  assert (Eem : em = 0.6)
    by (apply Htier; simpl; intros [H | [H | [H | []]]]; discriminate).
  split; [exact Hs | split; [exact Hc |]].
  split; [now rewrite Htm, Etm | split; [now rewrite Hem, Eem |]].
  split; [| reflexivity].
  rewrite Hscore, Hraw, Etm, Eem.
  destruct Hs as [<- | [<- | [<- | []]]]; try discriminate Hc.
  reflexivity.
Defined.

End PrototypeProps.

(* ------------------------------------------------------------------------- *)
(** ** Further properties of the refresh and of the recompute *)
(* ------------------------------------------------------------------------- *)

Module RefreshExtras.
Import JS Nowcast Feeds Health Notions MaturityProps ScoreProps RefreshProps.

(** The exposure rates of every entry are ordered and not negative. *)
Lemma exposure_ordered (k : SeriesKey) :
  0 <= low (AI_EXPOSURE_MODEL k) /\
  low (AI_EXPOSURE_MODEL k) <= mid (AI_EXPOSURE_MODEL k) /\
  mid (AI_EXPOSURE_MODEL k) <= high (AI_EXPOSURE_MODEL k).
Proof. destruct k; simpl; repeat split; discriminate. Qed.

Lemma exposure_mid_floor (k : SeriesKey) :
  k <> total -> 0.05 <= mid (AI_EXPOSURE_MODEL k).
Proof. destruct k; simpl; intros H; try discriminate. now destruct H. Qed.

Lemma addIndustry_ordered (fred : Fred) (acc : Sums) (k : SeriesKey) :
  (forall k' v, value (get fred k') = Some v -> 0 <= v) ->
  k <> total -> sumsOrdered acc -> sumsOrdered (addIndustry fred acc k).
Proof.
  intros Hnn Hk (H0 & H1 & H2 & H3 & H4). unfold addIndustry.
  destruct (value (get fred k)) as [v |] eqn:Hv; [| repeat split; assumption].
  destruct (truthy v); [| repeat split; assumption].
  specialize (Hnn k v Hv).
  destruct (exposure_ordered k) as (Hl & Hlm & Hmh).
  pose proof (exposure_mid_floor k Hk) as Hfloor.
  assert (Hvl : 0 <= v * low (AI_EXPOSURE_MODEL k))
    by now apply Qmult_le_0_compat.
  assert (Hvlm : v * low (AI_EXPOSURE_MODEL k) <= v * mid (AI_EXPOSURE_MODEL k)).
  { rewrite !(Qmult_comm v). now apply Qmult_le_compat_r. }
  assert (Hvmh : v * mid (AI_EXPOSURE_MODEL k) <= v * high (AI_EXPOSURE_MODEL k)).
  { rewrite !(Qmult_comm v). now apply Qmult_le_compat_r. }
  assert (Hvf : v * 0.05 <= v * mid (AI_EXPOSURE_MODEL k)).
  { rewrite !(Qmult_comm v). now apply Qmult_le_compat_r. }
  unfold sumsOrdered. simpl. repeat split; lra.
Qed.

Lemma industries_ordered (fred : Fred) :
  (forall k v, value (get fred k) = Some v -> 0 <= v) ->
  sumsOrdered (fold_left (addIndustry fred) industries
                 {| sumLow := 0; sumMid := 0; sumHigh := 0; knownTotal := 0 |}).
Proof.
  intros Hnn.
  assert (Hinit : sumsOrdered {| sumLow := 0; sumMid := 0; sumHigh := 0;
                                 knownTotal := 0 |}).
  { unfold sumsOrdered. simpl. repeat split; discriminate. }
  unfold industries. cbn [fold_left].
  repeat (apply addIndustry_ordered; [exact Hnn | discriminate |]).
  exact Hinit.
Qed.

Lemma estimates_ordered (liveData : LiveData) (t : Q) :
  (forall k v, value (get (fred liveData) k) = Some v -> 0 <= v) ->
  let '(lo, mi, hi) := estimates liveData t in
  0 <= lo /\ lo <= mi /\ mi <= hi /\ 0.05 * t <= mi.
Proof.
  intros Hnn. unfold estimates.
  destruct (industries_ordered (fred liveData) Hnn) as (H0 & H1 & H2 & H3 & H4).
  set (acc := fold_left _ _ _) in *.
  unfold Math_max. simpl low. simpl mid. simpl high.
  destruct (Qle_bool 0 (t - knownTotal acc)) eqn:E.
  - apply Qle_bool_iff in E. repeat split; lra.
  - assert (Hneg : t - knownTotal acc < 0).
    { apply Qnot_le_lt. intros H. apply Qle_bool_iff in H. congruence. }
    repeat split; lra.
Qed.

(** The recompute when the total is a number other than 0. *)
Lemma calculateAIDisplacement_with_total (now : Z) (liveData : LiveData) (t : Q) :
  value (get (fred liveData) total) = Some t -> ~ t == 0 ->
  let '(lo, mi, hi) := estimates liveData t in
  let d := Math_floor (inject_Z (now - START_DATE) / inject_Z MS_PER_DAY) in
  let calc := calculated (calculateAIDisplacement now liveData) in
  aiLow calc = Math_round lo /\ aiMid calc = Math_round mi /\
  aiHigh calc = Math_round hi /\
  perDayLow calc = Math_round (lo / 30) /\
  perDayMid calc = Math_round (mi / 30) /\
  perDayHigh calc = Math_round (hi / 30) /\
  perSecond calc = mi / 30 / 86400 /\
  historicalLow calc = Some (Math_floor (inject_Z d * lo / 30)) /\
  historicalMid calc = Some (Math_floor (inject_Z d * (mi / 30))) /\
  historicalHigh calc = Some (Math_floor (inject_Z d * hi / 30)) /\
  daysSinceStart calc = Some d.
Proof.
  intros Ht Hne. unfold estimates, calculateAIDisplacement.
  cbv zeta. change (get (fred liveData) total) with (fred_total (fred liveData)) in *.
  unfold get in Ht. rewrite Ht. unfold or_else, truthy.
  destruct (Qeq_bool t 0) eqn:E.
  - apply Qeq_bool_iff in E. contradiction.
  - simpl negb. cbv iota. rewrite E. simpl. repeat split.
Qed.

Lemma Math_round_le (x y : Q) : x <= y -> (Math_round x <= Math_round y)%Z.
Proof. intros H. unfold Math_round. apply Qfloor_resp_le. lra. Qed.

Lemma Math_round_monotone_0 (x : Q) : 0 <= x -> (0 <= Math_round x)%Z.
Proof. intros H. apply (Math_round_le 0 x H). Qed.

Lemma floor_scaled_monotone (d : Z) (x y : Q) :
  (0 <= d)%Z -> x <= y ->
  (Math_floor (inject_Z d * x / 30) <= Math_floor (inject_Z d * y / 30))%Z.
Proof.
  intros Hd Hxy. unfold Math_floor. apply Qfloor_resp_le.
  assert (Hq : 0 <= inject_Z d).
  { change 0 with (inject_Z 0). now rewrite <- Zle_Qle. }
  assert (H : inject_Z d * x <= inject_Z d * y).
  { rewrite !(Qmult_comm (inject_Z d)). now apply Qmult_le_compat_r. }
  qconst. lra.
Qed.

(** When the total is a number other than 0, no stored value is negative
    and the clock is not before the start date, the recomputed estimates are
    ordered: low <= mid <= high for the monthly figures, the daily figures
    and the historical totals, none of them negative. *)
Theorem recomputed_range_ordered (now : Z) (liveData : LiveData) (t : Q) :
  value (get (fred liveData) total) = Some t -> ~ t == 0 ->
  (forall k v, value (get (fred liveData) k) = Some v -> 0 <= v) ->
  (START_DATE <= now)%Z ->
  let calc := calculated (calculateAIDisplacement now liveData) in
  (0 <= aiLow calc <= aiMid calc)%Z /\ (aiMid calc <= aiHigh calc)%Z /\
  (0 <= perDayLow calc <= perDayMid calc)%Z /\
  (perDayMid calc <= perDayHigh calc)%Z /\
  exists l m h,
    historicalLow calc = Some l /\ historicalMid calc = Some m /\
    historicalHigh calc = Some h /\ (0 <= l <= m)%Z /\ (m <= h)%Z.
Proof.
  intros Ht Hne Hnn Hclock.
  pose proof (calculateAIDisplacement_with_total now liveData t Ht Hne) as Hc.
  pose proof (estimates_ordered liveData t Hnn) as Ho.
  destruct (estimates liveData t) as [[lo mi] hi].
  cbv zeta in *.
  destruct Hc as (-> & -> & -> & -> & -> & -> & _ & -> & -> & -> & _).
  destruct Ho as (H0 & H1 & H2 & _).
  set (d := Math_floor (inject_Z (now - START_DATE) / inject_Z MS_PER_DAY)).
  assert (Hd : (0 <= d)%Z).
  { unfold d. rewrite floor_quotient. apply Z.div_pos; [lia | reflexivity]. }
  assert (Hr0 : forall x, 0 <= x -> (0 <= Math_round x)%Z).
  { intros x Hx. apply (Math_round_monotone_0 x Hx). }
  split; [split; [apply Hr0; exact H0 | now apply Math_round_le] |].
  split; [now apply Math_round_le |].
  split; [split; [apply Hr0; qconst; lra | apply Math_round_le; qconst; lra] |].
  split; [apply Math_round_le; qconst; lra |].
  exists (Math_floor (inject_Z d * lo / 30)),
         (Math_floor (inject_Z d * (mi / 30))),
         (Math_floor (inject_Z d * hi / 30)).
  assert (Hmid : Math_floor (inject_Z d * (mi / 30))
                 = Math_floor (inject_Z d * mi / 30)).
  { unfold Math_floor. apply Qfloor_comp. unfold Qdiv. ring. }
  rewrite Hmid.
  split; [reflexivity | split; [reflexivity | split; [reflexivity |]]].
  split; [split |].
  - change 0%Z with (Math_floor 0).
    setoid_replace 0 with (inject_Z d * 0 / 30) at 1 by (unfold Qdiv; ring).
    now apply floor_scaled_monotone.
  - now apply floor_scaled_monotone.
  - now apply floor_scaled_monotone.
Qed.

Lemma recomputed_range_ordered_witness :
  value (get (fred afterAllUp) total) = Some 1650000 /\
  ~ 1650000 == 0 /\
  (START_DATE <= CLOCK_2026_02_01)%Z /\
  let calc := calculated (calculateAIDisplacement CLOCK_2026_02_01 afterAllUp) in
  (aiLow calc, aiMid calc, aiHigh calc) = (82600, 128600, 196500)%Z /\
  (0 <= aiLow calc <= aiMid calc)%Z /\ (aiMid calc <= aiHigh calc)%Z.
Proof.
  assert (Hne : ~ 1650000 == 0) by discriminate.
  assert (Hnn : forall k v, value (get (fred afterAllUp) k) = Some v -> 0 <= v).
  { intros k v Hv. destruct k; vm_compute in Hv; injection Hv as <-; discriminate. }
  assert (Hclock : (START_DATE <= CLOCK_2026_02_01)%Z) by (vm_compute; discriminate).
  destruct (recomputed_range_ordered CLOCK_2026_02_01 afterAllUp 1650000
              eq_refl Hne Hnn Hclock) as (H1 & H2 & _).
  split; [reflexivity | split; [exact Hne | split; [exact Hclock |]]].
  split; [reflexivity | split; [exact H1 | exact H2]].
Defined.

(** With a positive total and no negative stored value, the mid estimate
    is at least 5% of the total, whatever the industries report: the
    per-second rate is positive, at least [0.05 * total / 30 / 86400]. *)
Theorem recomputed_rate_positive (now : Z) (liveData : LiveData) (t : Q) :
  value (get (fred liveData) total) = Some t -> 0 < t ->
  (forall k v, value (get (fred liveData) k) = Some v -> 0 <= v) ->
  0.05 * t / 30 / 86400 <= perSecond (calculated (calculateAIDisplacement now liveData))
  /\ 0 < perSecond (calculated (calculateAIDisplacement now liveData)).
Proof.
  intros Ht Hpos Hnn.
  assert (Hne : ~ t == 0) by (intros H; rewrite H in Hpos; discriminate Hpos).
  pose proof (calculateAIDisplacement_with_total now liveData t Ht Hne) as Hc.
  pose proof (estimates_ordered liveData t Hnn) as Ho.
  destruct (estimates liveData t) as [[lo mi] hi].
  cbv zeta in *.
  destruct Hc as (_ & _ & _ & _ & _ & _ & -> & _).
  destruct Ho as (_ & _ & _ & H5).
  split; qconst; lra.
Qed.

Lemma recomputed_rate_positive_witness :
  value (get (fred afterInformationDown) total) = Some 1650000 /\
  0 < 1650000 /\
  0 < perSecond (calculated (calculateAIDisplacement CLOCK_2026_02_01
                               afterInformationDown)).
Proof.
  assert (Hpos : 0 < 1650000) by reflexivity.
  assert (Hnn : forall k v,
             value (get (fred afterInformationDown) k) = Some v -> 0 <= v).
  { intros k v Hv. destruct k; vm_compute in Hv;
      try discriminate Hv; injection Hv as <-; discriminate. }
  destruct (recomputed_rate_positive CLOCK_2026_02_01 afterInformationDown
              1650000 eq_refl Hpos Hnn) as [_ H].
  split; [reflexivity | split; [exact Hpos | exact H]].
Defined.

(** The recompute is a function of the fetched series and the clock only:
    a second recompute at the same clock reading changes nothing. *)
Theorem recompute_idempotent (now : Z) (liveData : LiveData) :
  calculateAIDisplacement now (calculateAIDisplacement now liveData)
  = calculateAIDisplacement now liveData.
Proof.
  unfold calculateAIDisplacement at 2.
  destruct (Qeq_bool (or_else (value (get (fred liveData) total)) 0) 0) eqn:E.
  - unfold calculateAIDisplacement. now rewrite E.
  - unfold calculateAIDisplacement. cbn [fred]. now rewrite E.
Qed.

Lemma errorLines_nil (results : list (SeriesKey * FetchResult)) :
  errorLines results = [] <->
  forall key result, In (key, result) results ->
                     exists l a d h, result = FetchOk l a d h.
Proof.
  induction results as [| [k r] rest IH].
  - split; [intros _ key result [] | reflexivity].
  - unfold errorLines in *. simpl flat_map. split.
    + intros H. apply app_eq_nil in H. destruct H as [Hr Hrest].
      intros key result [Heq | Hin].
      * injection Heq as <- <-. destruct r; [discriminate Hr | eauto].
      * now apply (proj1 IH Hrest key result).
    + intros H. destruct (H k r (or_introl eq_refl)) as (l & a & d & h & ->).
      simpl. apply IH. intros key result Hin. apply (H key result). now right.
Qed.

(** A refresh returns [true] exactly when every one of the six series was
    fetched, and throws exactly when some fetch failed with an empty (or
    absent) message.  When it returns, the error list and the time stamp are
    those of this refresh alone, the list is empty exactly when it returned
    [true], and the health probe asked right after it reports 'ok' exactly
    then.  When it throws, the error list, the time stamp and the rates stay
    those of before.  The probe reports 'ok' before the first refresh too. *)
Theorem refresh_flag_iff_all_fetched
    (fetch : string -> FetchResult) (stamp now : Z) (liveData : LiveData)
    (this : Counter) (clients : nat) :
  let after := fst (fetchAllData fetch stamp now liveData) in
  let flag := snd (fetchAllData fetch stamp now liveData) in
  (flag = Some true <->
   forall key, exists l a d h, fetch (seriesId key) = FetchOk l a d h) /\
  (flag = None <-> exists key, fetch (seriesId key) = FetchError EmptyString) /\
  (forall b : bool, flag = Some b ->
     (b = true <-> errors (fred after) = []) /\
     fetchedAt (fred after) = Some stamp /\
     dataStatus (health after this clients)
     = (if b then "ok" else "partial")%string) /\
  (flag = None ->
     errors (fred after) = errors (fred liveData) /\
     fetchedAt (fred after) = fetchedAt (fred liveData) /\
     calculated after = calculated liveData) /\
  dataStatus (health liveData0 this clients) = "ok"%string.
Proof.
  cbv zeta.
  assert (Hall : forall results : list (SeriesKey * FetchResult),
             (forall key, In (key, fetch (seriesId key)) (resultsOf fetch))).
  { intros _ key. apply in_map_iff. exists (key, seriesId key).
    split; [reflexivity | now apply FRED_SERIES_ids]. }
  specialize (Hall []).
  assert (Hnil : errorLines (resultsOf fetch) = [] <->
                 forall key, exists l a d h, fetch (seriesId key) = FetchOk l a d h).
  { rewrite errorLines_nil. split.
    - intros H key. apply (H key), Hall.
    - intros H key result Hin. apply in_map_iff in Hin.
      destruct Hin as ([k id] & Heq & Hin). simpl in Heq. injection Heq as <- <-.
      apply FRED_SERIES_ids in Hin. subst id. apply H. }
  destruct (existsb (fun kr => silent (snd kr)) (resultsOf fetch)) eqn:E.
  - (* some failure is mute: the refresh throws *)
    apply resultsOf_silent in E.
    destruct (fetchAllData_throws fetch stamp now liveData E) as (Hn & Hf & He & Hc).
    destruct E as [key Hkey]. apply silent_true in Hkey.
    split; [| split; [| split; [| split]]].
    + rewrite Hn. split; [discriminate |].
      intros H. destruct (H key) as (l & a & d & h & Hok).
      rewrite Hok in Hkey. discriminate.
    + split; [intros _; now exists key | intros _; exact Hn].
    + intros b Hb. rewrite Hn in Hb. discriminate.
    + intros _. now split.
    + reflexivity.
  - (* no failure is mute: the refresh returns *)
    assert (Hs : forall key, silent (fetch (seriesId key)) = false).
    { intros key. destruct (silent (fetch (seriesId key))) eqn:Hk; [| reflexivity].
      assert (Ht : existsb (fun kr => silent (snd kr)) (resultsOf fetch) = true)
        by (apply resultsOf_silent; now exists key).
      rewrite E in Ht. discriminate. }
    destruct (fetchAllData_errors fetch stamp now liveData Hs)
      as (Herr & Hstamp & Hflag).
    assert (Hlen : forall l : list string, (List.length l =? 0)%nat = true <-> l = []).
    { intros [| x l]; simpl; split; intros H; try reflexivity; discriminate. }
    split; [| split; [| split; [| split]]].
    + rewrite Hflag. split.
      * intros [= H]. now apply Hnil, Hlen.
      * intros H. apply Hnil in H. now rewrite H.
    + rewrite Hflag. split; [discriminate |].
      intros [key Hkey]. specialize (Hs key). rewrite Hkey in Hs. discriminate.
    + intros b Hb. rewrite Hflag in Hb. injection Hb as <-.
      split; [| split].
      * now rewrite Herr, Hlen.
      * exact Hstamp.
      * unfold health. cbn [dataStatus]. now rewrite Herr.
    + rewrite Hflag. discriminate.
    + reflexivity.
Qed.

End RefreshExtras.

(* ------------------------------------------------------------------------- *)
(** ** Further properties of the counter *)
(* ------------------------------------------------------------------------- *)

Module CounterExtras.
Import JS Nowcast Feeds MoreSamples CounterProps.

(** In binary64 the decimal counter of [getState] can be a unit above the
    integer counter while the fraction is still below 1: at the value
    4831073 the doubles are 2^-30 apart, and the sum with a fraction within
    half of that of 1 rounds to 4831074.  In the middle of a unit the sum is
    exact. *)
Theorem counterDecimal_binary64_rounds_up :
  PrimFloat.leb 0 0.9999999999 = true /\
  PrimFloat.ltb 0.9999999999 1 = true /\
  PrimFloat.eqb (counterDecimal_binary64 4831073 0.9999999999) 4831074 = true /\
  PrimFloat.eqb (counterDecimal_binary64 4831073 0.5) 4831073.5 = true.
Proof. vm_compute. repeat split. Qed.

Lemma jitter_range (random : Q) :
  0 <= random -> random < 1 ->
  0.9 <= 1 + (random - 0.5) * 0.2 /\ 1 + (random - 0.5) * 0.2 <= 1.1.
Proof. intros H0 H1. split; lra. Qed.

(** A tick that does not seed the counter, at a positive rate, adds exactly
    rate x elapsed seconds x jitter to value + fraction: the carry loop moves
    whole units from the fraction into the value and loses nothing.  The
    amount added lies between 0.9 and 1.1 times rate x elapsed. *)
Theorem tick_adds_rate_times_elapsed
    (liveData : LiveData) (now : Z) (random : Q) (this : Counter) :
  0 <= this_fraction this ->
  (this_lastTick this <= now)%Z ->
  0 <= random -> random < 1 ->
  (this_initialized this = true \/ historicalMid_positive liveData = false) ->
  0 < perSecond (calculated liveData) ->
  exists this',
    tick liveData now random this = Some this' /\
    let expected :=
      perSecond (calculated liveData)
      * (inject_Z (now - this_lastTick this) / 1000) in
    let added :=
      inject_Z (this_value this') + this_fraction this'
      - (inject_Z (this_value this) + this_fraction this) in
    added == expected * (1 + (random - 0.5) * 0.2) /\
    0.9 * expected <= added /\ added <= 1.1 * expected.
Proof.
  intros Hf0 Hclock Hr0 Hr1 Hinit Hrate.
  rewrite tick_unfold. cbv zeta.
  destruct (seeded_cases liveData this) as [[Hs _] | (h & Hh & Hpos & Hi & _)].
  2:{ exfalso. destruct Hinit as [Hinit | Hinit]; [congruence |].
      unfold historicalMid_positive in Hinit. rewrite Hh in Hinit.
      apply Z.ltb_ge in Hinit. lia. }
  rewrite Hs. rewrite (proj2 (ltb_spec 0 _) Hrate).
  set (elapsed := inject_Z (now - this_lastTick this) / 1000).
  set (jitter := 1 + (random - 0.5) * 0.2).
  destruct (jitter_range random Hr0 Hr1) as [Hj0 Hj1]. fold jitter in Hj0, Hj1.
  assert (He : 0 <= elapsed).
  { unfold elapsed.
    assert (H : inject_Z 0 <= inject_Z (now - this_lastTick this))
      by (rewrite <- Zle_Qle; lia).
    change (inject_Z 0) with 0 in H. unfold Qdiv.
    apply Qmult_le_0_compat; [exact H | discriminate]. }
  assert (Hexp : 0 <= perSecond (calculated liveData) * elapsed).
  { apply Qmult_le_0_compat; [now apply Qlt_le_weak | exact He]. }
  set (expected := perSecond (calculated liveData) * elapsed) in *.
  assert (Hlo : 0 <= expected * (jitter - 0.9))
    by (apply Qmult_le_0_compat; [exact Hexp | lra]).
  assert (Hhi : 0 <= expected * (1.1 - jitter))
    by (apply Qmult_le_0_compat; [exact Hexp | lra]).
  assert (Hadd : 0 <= expected * jitter)
    by (apply Qmult_le_0_compat; [exact Hexp | lra]).
  set (fraction := this_fraction this + expected * jitter).
  assert (Hfrac : 0 <= fraction) by (unfold fraction; lra).
  destruct (carry_terminates (S (Z.to_nat (Qfloor fraction)))
              (this_value this) fraction Hfrac (tick_fuel_enough fraction Hfrac))
    as (v' & f' & Hc & _ & _ & _ & Hsum).
  rewrite Hc. eexists. split; [reflexivity |]. simpl.
  assert (Hadded : inject_Z v' + f' - (inject_Z (this_value this) + this_fraction this)
                   == expected * jitter).
  { rewrite Hsum. unfold fraction. ring. }
  split; [exact Hadded |].
  rewrite Hadded. split; lra.
Qed.

(** The first tick after a positive historical total has become available
    seeds a counter that is not yet initialised: the counter is initialised
    afterwards and value + fraction is that total plus the old fraction plus
    what this tick adds; what the value was before does not enter. *)
Theorem first_tick_seeds_counter
    (liveData : LiveData) (now : Z) (random : Q) (this : Counter) (h : Z) :
  this_initialized this = false ->
  historicalMid (calculated liveData) = Some h -> (0 < h)%Z ->
  0 <= this_fraction this ->
  (this_lastTick this <= now)%Z ->
  0 <= random -> random < 1 ->
  exists this',
    tick liveData now random this = Some this' /\
    this_initialized this' = true /\
    (h <= this_value this')%Z /\
    inject_Z (this_value this') + this_fraction this'
    == inject_Z h + this_fraction this
       + (if ltb 0 (perSecond (calculated liveData))
          then perSecond (calculated liveData)
               * (inject_Z (now - this_lastTick this) / 1000)
               * (1 + (random - 0.5) * 0.2)
          else 0).
Proof.
  intros Hi Hh Hpos Hf0 Hclock Hr0 Hr1.
  rewrite tick_unfold. cbv zeta.
  destruct (seeded_cases liveData this) as [[_ Hc] | (h' & Hh' & _ & _ & Hs)].
  { exfalso. destruct Hc as [Hc | Hc]; [congruence |].
    unfold historicalMid_positive in Hc. rewrite Hh in Hc.
    apply Z.ltb_ge in Hc. lia. }
  assert (h' = h) by congruence. subst h'. rewrite Hs.
  cbn [this_value this_fraction this_lastTick this_initialized].
  destruct (ltb 0 (perSecond (calculated liveData))) eqn:Hrate.
  - apply ltb_spec in Hrate.
    set (elapsed := inject_Z (now - this_lastTick this) / 1000).
    set (jitter := 1 + (random - 0.5) * 0.2).
    destruct (jitter_range random Hr0 Hr1) as [Hj0 _]. fold jitter in Hj0.
    assert (He : 0 <= elapsed).
    { unfold elapsed.
      assert (H : inject_Z 0 <= inject_Z (now - this_lastTick this))
        by (rewrite <- Zle_Qle; lia).
      change (inject_Z 0) with 0 in H. unfold Qdiv.
      apply Qmult_le_0_compat; [exact H | discriminate]. }
    assert (Hadd : 0 <= perSecond (calculated liveData) * elapsed * jitter).
    { apply Qmult_le_0_compat; [apply Qmult_le_0_compat |];
        [now apply Qlt_le_weak | exact He | lra]. }
    set (fraction := this_fraction this
                     + perSecond (calculated liveData) * elapsed * jitter).
    assert (Hfrac : 0 <= fraction) by (unfold fraction; lra).
    destruct (carry_terminates (S (Z.to_nat (Qfloor fraction))) h fraction Hfrac
                (tick_fuel_enough fraction Hfrac))
      as (v' & f' & Hc & Hle & _ & _ & Hsum).
    rewrite Hc. eexists. split; [reflexivity |]. simpl.
    split; [reflexivity | split; [exact Hle |]].
    rewrite Hsum. unfold fraction. ring.
  - eexists. split; [reflexivity |]. simpl.
    split; [reflexivity | split; [lia | ring]].
Qed.

Lemma tick_adds_rate_times_elapsed_witness :
  0 <= this_fraction running /\
  (this_lastTick running <= CLOCK_2026_02_01 + 60000)%Z /\
  0 < perSecond (calculated afterAllUp) /\
  exists this',
    tick afterAllUp (CLOCK_2026_02_01 + 60000) 0.5 running = Some this' /\
    inject_Z (this_value this') + this_fraction this'
    - (inject_Z (this_value running) + this_fraction running)
    == perSecond (calculated afterAllUp)
       * (inject_Z (CLOCK_2026_02_01 + 60000 - this_lastTick running) / 1000)
       * (1 + (0.5 - 0.5) * 0.2).
Proof.
  assert (Hf : 0 <= this_fraction running) by discriminate.
  assert (Hclock : (this_lastTick running <= CLOCK_2026_02_01 + 60000)%Z)
    by (vm_compute; discriminate).
  assert (Hrate : 0 < perSecond (calculated afterAllUp)) by reflexivity.
  destruct (tick_adds_rate_times_elapsed afterAllUp (CLOCK_2026_02_01 + 60000)
              0.5 running Hf Hclock ltac:(discriminate) ltac:(reflexivity)
              (or_introl eq_refl) Hrate) as (this' & Ht & Hadd & _).
  split; [exact Hf | split; [exact Hclock | split; [exact Hrate |]]].
  exists this'. split; [exact Ht | exact Hadd].
Defined.

(** The tick of the witness above: 3 units carried, fraction 0.477. *)
Example tick_of_running :
  option_map (fun this => (this_value this, Qred (this_fraction this)))
    (tick afterAllUp (CLOCK_2026_02_01 + 60000) 0.5 running)
  = Some (4831076%Z, 103 # 216).
Proof. reflexivity. Qed.

Lemma first_tick_seeds_counter_witness :
  this_initialized unseeded = false /\
  historicalMid (calculated afterAllUp) = Some 4831073%Z /\
  exists this',
    tick afterAllUp (CLOCK_2026_02_01 + 100) 0.5 unseeded = Some this' /\
    this_initialized this' = true /\ (4831073 <= this_value this')%Z.
Proof.
  destruct (first_tick_seeds_counter afterAllUp (CLOCK_2026_02_01 + 100) 0.5
              unseeded 4831073 eq_refl eq_refl ltac:(reflexivity)
              ltac:(discriminate) ltac:(vm_compute; discriminate)
              ltac:(discriminate) ltac:(reflexivity))
    as (this' & Ht & Hi & Hle & _).
  split; [reflexivity | split; [reflexivity |]].
  exists this'. split; [exact Ht | split; [exact Hi | exact Hle]].
Defined.

End CounterExtras.

(* ------------------------------------------------------------------------- *)
(** ** Properties of the browser client *)
(* ------------------------------------------------------------------------- *)

Module ClientProps.
Import JS Nowcast Feeds Client MoreSamples CounterProps CounterExtras.

Lemma html_eqb_eq (a b : Html) : html_eqb a b = true -> a = b.
Proof.
  destruct a as [[i d] |], b as [[i' d'] |]; simpl; try discriminate;
    [| reflexivity].
  intros H. apply andb_true_iff in H. destruct H as [Hi Hd].
  apply Z.eqb_eq in Hi. apply Z.eqb_eq in Hd. now subst.
Qed.

(** The two decimals of a number. *)
Lemma decimals_range (x : Q) :
  (0 <= Math_floor ((x - inject_Z (Math_floor x)) * 100) <= 99)%Z.
Proof.
  unfold Math_floor.
  pose proof (Qfloor_le x) as Hlo. pose proof (Qlt_floor x) as Hhi.
  rewrite inject_Z_plus in Hhi. change (inject_Z 1) with 1 in Hhi.
  split.
  - change 0%Z with (Qfloor 0). apply Qfloor_resp_le. lra.
  - assert (H : (Qfloor ((x - inject_Z (Qfloor x)) * 100) < 100)%Z).
    { rewrite Zlt_Qlt.
      pose proof (Qfloor_le ((x - inject_Z (Qfloor x)) * 100)) as H.
      change (inject_Z 100) with 100. lra. }
    lia.
Qed.

(** [updateDisplay] on a page with a counter element always leaves in it
    the integer part of the decimal counter and its two decimals, which are
    between 00 and 99; the state's counter never goes down, and the flash is
    started only when it goes up, to that integer part. *)
Lemma updateDisplay_shows_floor (state : ClientState) (innerHTML : Html) :
  let '(state', el', flashed) := updateDisplay state (Some innerHTML) in
  let integer := Math_floor (ui_counterDecimal state) in
  let decimal :=
    Math_floor ((ui_counterDecimal state - inject_Z integer) * 100) in
  el' = Some (Some (integer, decimal)) /\
  (0 <= decimal <= 99)%Z /\
  ui_counterDecimal state' = ui_counterDecimal state /\
  (ui_counter state <= ui_counter state')%Z /\
  (if flashed
   then ui_counter state' = integer /\ (ui_counter state < integer)%Z
   else ui_counter state' = ui_counter state).
Proof.
  unfold updateDisplay.
  set (integer := Math_floor (ui_counterDecimal state)).
  set (decimal := Math_floor ((ui_counterDecimal state - inject_Z integer) * 100)).
  pose proof (decimals_range (ui_counterDecimal state)) as Hd.
  fold integer in Hd. fold decimal in Hd.
  destruct (html_eqb innerHTML (Some (integer, decimal))) eqn:E; simpl negb; cbv iota.
  - apply html_eqb_eq in E. subst innerHTML.
    split; [reflexivity | split; [exact Hd | split; [reflexivity |]]].
    split; [lia | reflexivity].
  - destruct (Z.ltb_spec (ui_counter state) integer) as [Hlt | Hge]; simpl.
    + split; [reflexivity | split; [exact Hd | split; [reflexivity |]]].
      split; [lia | split; [reflexivity | exact Hlt]].
    + split; [reflexivity | split; [exact Hd | split; [reflexivity |]]].
      split; [lia | reflexivity].
Qed.

Lemma smoothed_gap (target cd : Q) :
  let diff := target - cd in
  let smoothed := if ltb 0.0001 (Qabs diff) then cd + diff * 0.12 else cd in
  Qabs (target - smoothed) <= Qabs (target - cd) /\
  (0.0001 < Qabs (target - cd) -> target - smoothed == 0.88 * (target - cd)) /\
  (cd <= target -> cd <= smoothed /\ smoothed <= target).
Proof.
  cbv zeta. destruct (ltb 0.0001 (Qabs (target - cd))) eqn:E.
  - split; [| split].
    + setoid_replace (target - (cd + (target - cd) * 0.12))
        with (0.88 * (target - cd)) by ring.
      rewrite Qabs_Qmult. change (Qabs 0.88) with 0.88.
      pose proof (Qabs_nonneg (target - cd)). lra.
    + intros _. ring.
    + intros H. split; lra.
  - split; [apply Qle_refl | split].
    + intros H. apply ltb_spec in H. congruence.
    + intros H. split; [apply Qle_refl | exact H].
Qed.

(** In a frame without extrapolation (no more than 0.2 s since the last
    message, or no positive rate), the displayed decimal counter does not
    move away from the target: once the gap exceeds 0.0001 it shrinks to
    exactly 88% of itself, from either side and without overshoot. *)
Theorem frame_closes_gap (now : Z) (state : ClientState) :
  ~ (0.2 < inject_Z (now - ui_lastTick state) / 1000 /\ 0 < ui_perSecond state) ->
  Qabs (ui_targetCounter state - advance now state)
    <= Qabs (ui_targetCounter state - ui_counterDecimal state) /\
  (0.0001 < Qabs (ui_targetCounter state - ui_counterDecimal state) ->
   ui_targetCounter state - advance now state
   == 0.88 * (ui_targetCounter state - ui_counterDecimal state)).
Proof.
  intros Hno. unfold advance.
  destruct (ltb 0.2 (inject_Z (now - ui_lastTick state) / 1000)
            && ltb 0 (ui_perSecond state)) eqn:E.
  - exfalso. apply Hno. apply andb_true_iff in E.
    destruct E as [E1 E2]. split; now apply ltb_spec.
  - destruct (smoothed_gap (ui_targetCounter state) (ui_counterDecimal state))
      as (H1 & H2 & _).
    split; assumption.
Qed.

(** While the displayed decimal counter is not ahead of the target, a
    frame never lowers it, with or without extrapolation. *)
Theorem frame_never_lowers_display (now : Z) (state : ClientState) :
  ui_counterDecimal state <= ui_targetCounter state ->
  ui_counterDecimal state <= advance now state.
Proof.
  intros Hle. unfold advance.
  destruct (smoothed_gap (ui_targetCounter state) (ui_counterDecimal state))
    as (_ & _ & H3).
  destruct (H3 Hle) as [Hs _]. cbv zeta in Hs.
  destruct (ltb 0.2 (inject_Z (now - ui_lastTick state) / 1000)
            && ltb 0 (ui_perSecond state)); [| exact Hs].
  unfold Math_max.
  match goal with |- context [Qle_bool ?a ?b] => destruct (Qle_bool a b) eqn:E end;
    [| exact Hs].
  apply Qle_bool_iff in E. eapply Qle_trans; [exact Hs | exact E].
Qed.

Lemma frame_closes_gap_witness :
  ~ (0.2 < inject_Z (CLOCK_2026_02_01 + 100 - ui_lastTick lagging) / 1000
     /\ 0 < ui_perSecond lagging) /\
  0.0001 < Qabs (ui_targetCounter lagging - ui_counterDecimal lagging) /\
  ui_targetCounter lagging - advance (CLOCK_2026_02_01 + 100) lagging
  == 0.88 * (ui_targetCounter lagging - ui_counterDecimal lagging) /\
  Qred (advance (CLOCK_2026_02_01 + 100) lagging) = 48310647 # 10.
Proof.
  assert (Hno : ~ (0.2 < inject_Z (CLOCK_2026_02_01 + 100 - ui_lastTick lagging) / 1000
                   /\ 0 < ui_perSecond lagging)).
  { intros [H _]. vm_compute in H. discriminate H. }
  assert (Hgap : 0.0001 < Qabs (ui_targetCounter lagging - ui_counterDecimal lagging))
    by reflexivity.
  destruct (frame_closes_gap (CLOCK_2026_02_01 + 100) lagging Hno) as [_ H].
  split; [exact Hno | split; [exact Hgap | split; [exact (H Hgap) | reflexivity]]].
Defined.

Lemma frame_never_lowers_display_witness :
  ui_counterDecimal lagging <= ui_targetCounter lagging /\
  ui_counterDecimal lagging <= advance (CLOCK_2026_02_01 + 1000) lagging /\
  Qred (advance (CLOCK_2026_02_01 + 1000) lagging) = 193242941 # 40.
Proof.
  assert (Hle : ui_counterDecimal lagging <= ui_targetCounter lagging)
    by discriminate.
  split; [exact Hle | split; [| reflexivity]].
  exact (frame_never_lowers_display (CLOCK_2026_02_01 + 1000) lagging Hle).
Defined.

(** One frame of [animate] on a running page with a counter element: the
    decimal counter is advanced, the element shows its integer part and its
    two decimals (between 00 and 99), the state's counter never goes down,
    and the flash is started exactly when the counter is raised, to the
    integer part shown. *)
Theorem animate_frame (now : Z) (state : ClientState) (innerHTML : Html) :
  ui_animating state = true ->
  let '(state', el', flashed) := animate now state (Some innerHTML) in
  let integer := Math_floor (advance now state) in
  let decimal := Math_floor ((advance now state - inject_Z integer) * 100) in
  el' = Some (Some (integer, decimal)) /\
  (0 <= decimal <= 99)%Z /\
  ui_counterDecimal state' = advance now state /\
  (ui_counter state <= ui_counter state')%Z /\
  (if flashed
   then ui_counter state' = integer /\ (ui_counter state < integer)%Z
   else ui_counter state' = ui_counter state).
Proof.
  intros Hrun. unfold animate. rewrite Hrun. simpl negb. cbv iota.
  match goal with
  | |- context [updateDisplay ?s (Some innerHTML)] =>
      pose proof (updateDisplay_shows_floor s innerHTML) as H;
      destruct (updateDisplay s (Some innerHTML)) as [[state' el'] flashed]
  end.
  exact H.
Qed.

Lemma animate_frame_witness :
  ui_animating lagging = true /\
  let '(state', el', flashed) :=
    animate (CLOCK_2026_02_01 + 100) lagging (Some (Some (4831063, 50)%Z)) in
  el' = Some (Some (4831064, 70)%Z) /\ flashed = true /\
  ui_counter state' = 4831064%Z.
Proof.
  pose proof (animate_frame (CLOCK_2026_02_01 + 100) lagging
                (Some (4831063, 50)%Z) eq_refl) as H.
  destruct (animate (CLOCK_2026_02_01 + 100) lagging (Some (Some (4831063, 50)%Z)))
    as [[state' el'] flashed] eqn:E.
  vm_compute in E. injection E as <- <- <-.
  cbv zeta in H. destruct H as (Hel & _ & _ & _ & _).
  split; [reflexivity |].
  split; [exact Hel | split; reflexivity].
Defined.

Lemma handleData_rendered (now : Z) (data : State) (state : ClientState) :
  (ui_companiesRendered state = true ->
   ui_companiesRendered (fst (handleData now data state)) = true /\
   snd (handleData now data state) = None) /\
  (forall t, snd (handleData now data state) = Some t ->
             ui_companiesRendered (fst (handleData now data state)) = true).
Proof.
  unfold handleData. simpl.
  destruct ((ui_counter state =? 0)%Z && (0 <? counter data)%Z);
    destruct (ui_companiesRendered state); simpl; split;
    try (intros H; discriminate H); try (intros t H; discriminate H); auto.
Qed.

(** Over all the messages of a connection [renderCompanies] is called at
    most once, and never when the companies have been rendered before. *)
Theorem companies_rendered_at_most_once
    (messages : list (Z * State)) (state : ClientState) :
  (List.length (snd (handleAll messages state))
   <= if ui_companiesRendered state then 0 else 1)%nat.
Proof.
  revert state. induction messages as [| [now data] rest IH]; intros state.
  - simpl. destruct (ui_companiesRendered state); lia.
  - cbn [handleAll].
    destruct (handleData_rendered now data state) as [Hdone Hnew].
    destruct (handleData now data state) as [state1 rendered] eqn:E.
    simpl fst in *. simpl snd in *.
    specialize (IH state1).
    destruct (handleAll rest state1) as [state2 renders]. simpl snd in *.
    destruct rendered as [t |].
    + rewrite (Hnew t eq_refl) in IH.
      destruct (ui_companiesRendered state) eqn:Hr.
      * destruct (Hdone eq_refl) as [_ Hnone]. discriminate Hnone.
      * simpl. lia.
    + destruct (ui_companiesRendered state) eqn:Hr.
      * destruct (Hdone eq_refl) as [Hkeep _]. rewrite Hkeep in IH. exact IH.
      * destruct (ui_companiesRendered state1); lia.
Qed.

End ClientProps.

(* ------------------------------------------------------------------------- *)
(** ** Properties of the in-memory data store *)
(* ------------------------------------------------------------------------- *)

Module StoreProps.
Import JS Store Feeds MoreSamples.

Lemma existsb_id (event : Event) (events : Events) :
  existsb (fun e => String.eqb (id e) (id event)) events = true
  <-> In (id event) (map id events).
Proof.
  rewrite existsb_exists, in_map_iff. split.
  - intros (e & Hin & He). apply String.eqb_eq in He. now exists e.
  - intros (e & He & Hin). exists e. split; [exact Hin |]. now apply String.eqb_eq.
Qed.

(** An event whose id is already stored is refused: [addEvent] returns
    [false] and leaves the stored events as they are, old ones included. *)
Theorem addEvent_duplicate (now : Z) (event : Event) (events : Events) :
  In (id event) (map id events) ->
  addEvent now event events = (events, false).
Proof.
  intros Hin. unfold addEvent.
  now rewrite (proj2 (existsb_id event events) Hin).
Qed.

Lemma addEvent_duplicate_witness :
  In (id (event "b" CLOCK_2026_02_01)) (map id stored) /\
  addEvent CLOCK_2026_02_01 (event "b" CLOCK_2026_02_01) stored = (stored, false).
Proof.
  assert (Hin : In (id (event "b" CLOCK_2026_02_01)) (map id stored))
    by (right; left; reflexivity).
  split; [exact Hin |].
  exact (addEvent_duplicate CLOCK_2026_02_01 (event "b" CLOCK_2026_02_01) stored Hin).
Defined.

Lemma NoDup_map_filter {A B : Type} (g : A -> B) (f : A -> bool) (l : list A) :
  NoDup (map g l) -> NoDup (map g (filter f l)).
Proof.
  induction l as [| x rest IH]; intros Hnd; [constructor |].
  simpl in *. inversion Hnd as [| ? ? Hx Hrest]; subst.
  destruct (f x); [| now apply IH].
  simpl. constructor; [| now apply IH].
  intros Hin. apply Hx. apply in_map_iff in Hin.
  destruct Hin as (y & Hy & Hin). apply filter_In in Hin.
  apply in_map_iff. exists y. tauto.
Qed.

Lemma NoDup_snoc {A : Type} (x : A) (l : list A) :
  ~ In x l -> NoDup l -> NoDup (l ++ [x]).
Proof.
  induction l as [| y rest IH]; intros Hx Hnd; simpl.
  - repeat constructor. intros [].
  - inversion Hnd as [| ? ? Hy Hrest]; subst.
    constructor.
    + rewrite in_app_iff. intros [H | [H | []]]; [now apply Hy |].
      apply Hx. now left.
    + apply IH; [| exact Hrest]. intros H. apply Hx. now right.
Qed.

(** An event with a new id is accepted with [true].  Afterwards exactly the
    events of the last 90 days are kept: older stored events are dropped, and
    the new event itself is kept only if it is newer than 90 days; stored ids
    stay unique. *)
Theorem addEvent_fresh (now : Z) (event : Event) (events : Events) :
  ~ In (id event) (map id events) ->
  NoDup (map id events) ->
  let '(kept, flag) := addEvent now event events in
  flag = true /\
  kept = filter (fun e => (now - 90 * MS_PER_DAY <? event_time e)%Z)
                (events ++ [event]) /\
  Forall (fun e => (now - 90 * MS_PER_DAY < event_time e)%Z) kept /\
  (In event kept <-> (now - 90 * MS_PER_DAY < event_time event)%Z) /\
  NoDup (map id kept).
Proof.
  intros Hnew Hnd. unfold addEvent.
  destruct (existsb (fun e => String.eqb (id e) (id event)) events) eqn:E.
  - apply existsb_id in E. contradiction.
  - split; [reflexivity | split; [reflexivity | split; [| split]]].
    + apply Forall_forall. intros e He. apply filter_In in He.
      destruct He as [_ He]. now apply Z.ltb_lt in He.
    + rewrite filter_In, in_app_iff, Z.ltb_lt. simpl. tauto.
    + apply NoDup_map_filter. rewrite map_app. simpl.
      now apply NoDup_snoc.
Qed.

Lemma addEvent_fresh_witness :
  ~ In (id (event "d" (CLOCK_2026_02_01 - 100 * MS_PER_DAY))) (map id stored) /\
  NoDup (map id stored) /\
  addEvent (CLOCK_2026_02_01 + 15 * MS_PER_DAY)
           (event "d" (CLOCK_2026_02_01 - 100 * MS_PER_DAY)) stored
  = ([event "b" (CLOCK_2026_02_01 - 5 * MS_PER_DAY);
      event "c" (CLOCK_2026_02_01 - 1 * MS_PER_DAY)], true) /\
  ~ In (event "d" (CLOCK_2026_02_01 - 100 * MS_PER_DAY))
       (fst (addEvent (CLOCK_2026_02_01 + 15 * MS_PER_DAY)
               (event "d" (CLOCK_2026_02_01 - 100 * MS_PER_DAY)) stored)).
Proof.
  assert (Hnew : ~ In (id (event "d" (CLOCK_2026_02_01 - 100 * MS_PER_DAY)))
                      (map id stored)).
  { simpl. intros [H | [H | [H | []]]]; discriminate H. }
  assert (Hnd : NoDup (map id stored)).
  { simpl. repeat constructor; simpl; intros H;
      repeat (destruct H as [H | H]; [discriminate H |]); destruct H. }
  pose proof (addEvent_fresh (CLOCK_2026_02_01 + 15 * MS_PER_DAY)
                (event "d" (CLOCK_2026_02_01 - 100 * MS_PER_DAY)) stored Hnew Hnd)
    as H.
  destruct (addEvent (CLOCK_2026_02_01 + 15 * MS_PER_DAY)
              (event "d" (CLOCK_2026_02_01 - 100 * MS_PER_DAY)) stored)
    as [kept flag] eqn:E.
  destruct H as (_ & _ & _ & Hin & _).
  split; [exact Hnew | split; [exact Hnd | split]].
  - rewrite <- E. reflexivity.
  - simpl fst. intros Hk. apply Hin in Hk. vm_compute in Hk. discriminate Hk.
Defined.

Lemma slice_suffix {A : Type} (start : Z) (l : list A) :
  exists dropped, l = dropped ++ slice start l.
Proof.
  unfold slice. eexists. symmetry. apply firstn_skipn.
Qed.

Lemma slice_last {A : Type} (n : Z) (l : list A) :
  (0 < n)%Z ->
  List.length (slice (- n) l) = Nat.min (Z.to_nat n) (List.length l).
Proof.
  intros Hn. unfold slice.
  destruct (Z.ltb_spec (- n) 0) as [_ | H]; [| lia].
  rewrite length_skipn. lia.
Qed.

(** [getEvents] with a positive limit (the default 100 included) returns
    the last [limit] events of the window, or all of them if they are fewer:
    a final segment of the stored events that are newer than [days] days, in
    stored order. *)
Theorem getEvents_last_of_window (now : Z) (options : Options) (events : Events) :
  (0 < default (limit options) 100)%Z ->
  let window :=
    filter (fun e => (now - default (days options) 7 * MS_PER_DAY <? event_time e)%Z)
           events in
  (exists dropped, window = dropped ++ getEvents now options events) /\
  List.length (getEvents now options events)
  = Nat.min (Z.to_nat (default (limit options) 100)) (List.length window) /\
  Forall (fun e => In e events /\
                   (now - default (days options) 7 * MS_PER_DAY < event_time e)%Z)
         (getEvents now options events).
Proof.
  intros Hlimit. cbv zeta. unfold getEvents.
  set (window := filter _ events).
  destruct (slice_suffix (- default (limit options) 100) window) as [dropped Hd].
  split; [now exists dropped | split; [now apply slice_last |]].
  apply Forall_forall. intros e He.
  assert (Hw : In e window) by (rewrite Hd, in_app_iff; now right).
  unfold window in Hw. apply filter_In in Hw. destruct Hw as [Hin Ht].
  split; [exact Hin | now apply Z.ltb_lt in Ht].
Qed.

Lemma getEvents_last_of_window_witness :
  (0 < default (limit {| days := Some 7%Z; limit := Some 1%Z |}) 100)%Z /\
  getEvents CLOCK_2026_02_01 {| days := Some 7%Z; limit := Some 1%Z |} stored
  = [event "c" (CLOCK_2026_02_01 - 1 * MS_PER_DAY)] /\
  List.length (getEvents CLOCK_2026_02_01 {| days := Some 7%Z; limit := Some 1%Z |}
                 stored) = 1%nat.
Proof.
  destruct (getEvents_last_of_window CLOCK_2026_02_01
              {| days := Some 7%Z; limit := Some 1%Z |} stored eq_refl)
    as (_ & Hlen & _).
  split; [reflexivity | split; [reflexivity | exact Hlen]].
Defined.

(** With the limit 0, [getEvents] does not return an empty list: [slice(-0)]
    is [slice(0)], and every event of the window is returned. *)
Theorem getEvents_limit_zero (now : Z) (options : Options) (events : Events) :
  limit options = Some 0%Z ->
  getEvents now options events
  = filter (fun e => (now - default (days options) 7 * MS_PER_DAY <? event_time e)%Z)
           events.
Proof.
  intros Hl. unfold getEvents, slice. rewrite Hl. simpl default. simpl Z.opp.
  destruct (Z.ltb_spec 0 0); [lia |].
  rewrite Z.min_l by lia. reflexivity.
Qed.

Lemma getEvents_limit_zero_witness :
  limit {| days := None; limit := Some 0%Z |} = Some 0%Z /\
  getEvents CLOCK_2026_02_01 {| days := None; limit := Some 0%Z |} stored
  = [event "b" (CLOCK_2026_02_01 - 5 * MS_PER_DAY);
     event "c" (CLOCK_2026_02_01 - 1 * MS_PER_DAY)].
Proof.
  split; [reflexivity |].
  rewrite (getEvents_limit_zero CLOCK_2026_02_01
             {| days := None; limit := Some 0%Z |} stored eq_refl).
  reflexivity.
Defined.

End StoreProps.
